(** * A shallow embedding of the Game Boy emulator core

    Python integers are modelled as [Z], Python lists of fixed length as
    [pylist] (a length and a total lookup function), and a raised exception
    (IndexError, ...) as [None] in an [option] result. *)

From Stdlib Require Import ZArith Bool List Ascii String Lia Btauto.
Import ListNotations.
Open Scope Z_scope.

(** ** Python lists *)

Record pylist := mkList { plen : Z; pget : Z -> Z }.

(** [l[i]]: negative indices count from the end; out of range raises. *)
Definition py_index (l : pylist) (i : Z) : option Z :=
  if (0 <=? i) && (i <? plen l) then Some (pget l i)
  else if (- plen l <=? i) && (i <? 0) then Some (pget l (plen l + i))
  else None.

(** [l[i] = v] *)
Definition py_store (l : pylist) (i v : Z) : option pylist :=
  let j := if i <? 0 then plen l + i else i in
  if (0 <=? j) && (j <? plen l)
  then Some (mkList (plen l) (fun k => if k =? j then v else pget l k))
  else None.

(** [[0] * n] *)
Definition py_zeros (n : Z) : pylist := mkList n (fun _ => 0).

(** Truthiness of a list: non-empty. *)
Definition py_truthy (l : pylist) : bool := negb (plen l =? 0).

Definition bind {A B} (o : option A) (f : A -> option B) : option B :=
  match o with Some a => f a | None => None end.
Notation "x <- o ;; k" := (bind o (fun x => k))
  (at level 61, o at next level, right associativity).

(** ** Memory (src/memory/mmu.py) *)

Inductive mbc := ROM_ONLY | MBC1 | MBC2 | MBC3 | MBC5 | UNKNOWN.

Definition mbc_eqb (x y : mbc) : bool :=
  match x, y with
  | ROM_ONLY, ROM_ONLY | MBC1, MBC1 | MBC2, MBC2 | MBC3, MBC3
  | MBC5, MBC5 | UNKNOWN, UNKNOWN => true
  | _, _ => false
  end.

(** [self.mbc_type in ks]; [mbc_type] is [None] until a ROM is loaded. *)
Definition mbc_in (t : option mbc) (ks : list mbc) : bool :=
  match t with
  | Some k => existsb (mbc_eqb k) ks
  | None => false
  end.

Record Memory := mkMemory {
  rom : pylist;
  wram : pylist;
  vram : pylist;
  oam : pylist;
  hram : pylist;
  io : pylist;
  ie_register : Z;
  boot_rom : option pylist;
  boot_rom_enabled : bool;
  cart_ram : pylist;
  cart_ram_enabled : bool;
  mbc_type : option mbc;
  rom_bank : Z;
  ram_bank : Z;
  ram_enabled : bool
}.

(** Field updates. *)
Definition set_rom m x := mkMemory x (wram m) (vram m) (oam m) (hram m) (io m)
  (ie_register m) (boot_rom m) (boot_rom_enabled m) (cart_ram m)
  (cart_ram_enabled m) (mbc_type m) (rom_bank m) (ram_bank m) (ram_enabled m).
Definition set_wram m x := mkMemory (rom m) x (vram m) (oam m) (hram m) (io m)
  (ie_register m) (boot_rom m) (boot_rom_enabled m) (cart_ram m)
  (cart_ram_enabled m) (mbc_type m) (rom_bank m) (ram_bank m) (ram_enabled m).
Definition set_vram m x := mkMemory (rom m) (wram m) x (oam m) (hram m) (io m)
  (ie_register m) (boot_rom m) (boot_rom_enabled m) (cart_ram m)
  (cart_ram_enabled m) (mbc_type m) (rom_bank m) (ram_bank m) (ram_enabled m).
Definition set_oam m x := mkMemory (rom m) (wram m) (vram m) x (hram m) (io m)
  (ie_register m) (boot_rom m) (boot_rom_enabled m) (cart_ram m)
  (cart_ram_enabled m) (mbc_type m) (rom_bank m) (ram_bank m) (ram_enabled m).
Definition set_hram m x := mkMemory (rom m) (wram m) (vram m) (oam m) x (io m)
  (ie_register m) (boot_rom m) (boot_rom_enabled m) (cart_ram m)
  (cart_ram_enabled m) (mbc_type m) (rom_bank m) (ram_bank m) (ram_enabled m).
Definition set_io m x := mkMemory (rom m) (wram m) (vram m) (oam m) (hram m) x
  (ie_register m) (boot_rom m) (boot_rom_enabled m) (cart_ram m)
  (cart_ram_enabled m) (mbc_type m) (rom_bank m) (ram_bank m) (ram_enabled m).
Definition set_ie_register m x := mkMemory (rom m) (wram m) (vram m) (oam m)
  (hram m) (io m) x (boot_rom m) (boot_rom_enabled m) (cart_ram m)
  (cart_ram_enabled m) (mbc_type m) (rom_bank m) (ram_bank m) (ram_enabled m).
Definition set_boot_rom m x := mkMemory (rom m) (wram m) (vram m) (oam m)
  (hram m) (io m) (ie_register m) x (boot_rom_enabled m) (cart_ram m)
  (cart_ram_enabled m) (mbc_type m) (rom_bank m) (ram_bank m) (ram_enabled m).
Definition set_boot_rom_enabled m x := mkMemory (rom m) (wram m) (vram m)
  (oam m) (hram m) (io m) (ie_register m) (boot_rom m) x (cart_ram m)
  (cart_ram_enabled m) (mbc_type m) (rom_bank m) (ram_bank m) (ram_enabled m).
Definition set_cart_ram m x := mkMemory (rom m) (wram m) (vram m) (oam m)
  (hram m) (io m) (ie_register m) (boot_rom m) (boot_rom_enabled m) x
  (cart_ram_enabled m) (mbc_type m) (rom_bank m) (ram_bank m) (ram_enabled m).
Definition set_mbc_type m x := mkMemory (rom m) (wram m) (vram m) (oam m)
  (hram m) (io m) (ie_register m) (boot_rom m) (boot_rom_enabled m)
  (cart_ram m) (cart_ram_enabled m) x (rom_bank m) (ram_bank m) (ram_enabled m).
Definition set_rom_bank m x := mkMemory (rom m) (wram m) (vram m) (oam m)
  (hram m) (io m) (ie_register m) (boot_rom m) (boot_rom_enabled m)
  (cart_ram m) (cart_ram_enabled m) (mbc_type m) x (ram_bank m) (ram_enabled m).
Definition set_ram_bank m x := mkMemory (rom m) (wram m) (vram m) (oam m)
  (hram m) (io m) (ie_register m) (boot_rom m) (boot_rom_enabled m)
  (cart_ram m) (cart_ram_enabled m) (mbc_type m) (rom_bank m) x (ram_enabled m).
Definition set_ram_enabled m x := mkMemory (rom m) (wram m) (vram m) (oam m)
  (hram m) (io m) (ie_register m) (boot_rom m) (boot_rom_enabled m)
  (cart_ram m) (cart_ram_enabled m) (mbc_type m) (rom_bank m) (ram_bank m) x.

(** [Memory._init_io_registers] applied to [[0] * 128]. *)
Definition init_io_value (i : Z) : Z :=
  if i =? 0x00 then 0xFF else if i =? 0x02 then 0x7E
  else if i =? 0x07 then 0xF8 else if i =? 0x0F then 0xE1
  else if i =? 0x10 then 0x80 else if i =? 0x11 then 0xBF
  else if i =? 0x12 then 0xF3 else if i =? 0x13 then 0xFF
  else if i =? 0x14 then 0xBF else if i =? 0x40 then 0x91
  else if i =? 0x47 then 0xFC else if i =? 0x48 then 0xFF
  else if i =? 0x49 then 0xFF else 0.

(** [Memory.__init__] (and [Memory.reset], which sets the same fields). *)
Definition init_memory : Memory :=
  mkMemory (py_zeros (2 * 1024 * 1024)) (py_zeros (8 * 1024))
    (py_zeros (8 * 1024)) (py_zeros 160) (py_zeros 127)
    (mkList 128 init_io_value) 0x00 None true (py_zeros 0) false None 1 0
    false.

Definition memory_reset (m : Memory) : Memory := init_memory.

Definition _read_rom_bank (m : Memory) (address : Z) : option Z :=
  if mbc_in (mbc_type m) [ROM_ONLY] then
    if address <? plen (rom m) then py_index (rom m) address else Some 0xFF
  else
    let bank_offset := (rom_bank m - 1) * 0x4000 in
    let rom_address := bank_offset + (address - 0x4000) in
    if rom_address <? plen (rom m) then py_index (rom m) rom_address
    else Some 0xFF.

Definition _read_cart_ram (m : Memory) (address : Z) : option Z :=
  if negb (cart_ram_enabled m) || negb (py_truthy (cart_ram m)) then Some 0xFF
  else
    let ram_address := (address - 0xA000) + ram_bank m * 0x2000 in
    if ram_address <? plen (cart_ram m) then py_index (cart_ram m) ram_address
    else Some 0xFF.

Definition boot_rom_truthy (b : option pylist) : bool :=
  match b with Some l => py_truthy l | None => false end.

Definition read_byte (m : Memory) (address : Z) : option Z :=
  if (address <? 0x100) && boot_rom_enabled m && boot_rom_truthy (boot_rom m)
  then match boot_rom m with
       | Some l => py_index l address
       | None => None
       end
  else if address <? 0x4000 then py_index (rom m) address
  else if address <? 0x8000 then _read_rom_bank m address
  else if address <? 0xA000 then py_index (vram m) (address - 0x8000)
  else if address <? 0xC000 then _read_cart_ram m address
  else if address <? 0xE000 then py_index (wram m) (address - 0xC000)
  else if address <? 0xFE00 then py_index (wram m) (address - 0xE000)
  else if address <? 0xFEA0 then py_index (oam m) (address - 0xFE00)
  else if address <? 0xFF00 then Some 0xFF
  else if address <? 0xFF80 then py_index (io m) (address - 0xFF00)
  else if address <? 0xFFFF then py_index (hram m) (address - 0xFF80)
  else if address =? 0xFFFF then Some (ie_register m)
  else Some 0xFF.

Definition _write_cart_ram (m : Memory) (address value : Z) : option Memory :=
  if negb (cart_ram_enabled m) || negb (py_truthy (cart_ram m)) then Some m
  else
    let ram_address := (address - 0xA000) + ram_bank m * 0x2000 in
    if ram_address <? plen (cart_ram m) then
      l <- py_store (cart_ram m) ram_address value ;; Some (set_cart_ram m l)
    else Some m.

Definition _handle_ram_enable (m : Memory) (address value : Z) : Memory :=
  if mbc_in (mbc_type m) [MBC1; MBC3] then
    let en := Z.land value 0x0F =? 0x0A in
    let m1 := set_ram_enabled m en in
    if en && negb (py_truthy (cart_ram m1)) then
      set_cart_ram m1 (py_zeros 0x2000)
    else m1
  else m.

Definition _handle_rom_bank_change (m : Memory) (address value : Z) : Memory :=
  if mbc_in (mbc_type m) [MBC1; MBC2; MBC3; MBC5] then
    let bank := Z.land value 0x1F in
    let bank := if bank =? 0 then 1 else bank in
    set_rom_bank m bank
  else m.

Definition _handle_ram_bank_change (m : Memory) (address value : Z) : Memory :=
  if mbc_in (mbc_type m) [MBC1] then set_ram_bank m (Z.land value 0x03)
  else if mbc_in (mbc_type m) [MBC3] then set_ram_bank m (Z.land value 0x03)
  else m.

(** Mode selection is a [pass] in the source. *)
Definition _handle_mode_select (m : Memory) (address value : Z) : Memory := m.

Definition _write_io_register (m : Memory) (address value : Z) : option Memory :=
  let io_offset := address - 0xFF00 in
  if address =? 0xFF50 then
    (if Z.land value 1 =? 0 then Some m
     else Some (set_boot_rom_enabled m false))
  else if address =? 0xFF00 then Some m
  else if address =? 0xFF04 then
    l <- py_store (io m) io_offset 0 ;; Some (set_io m l)
  else if address =? 0xFF44 then Some m
  else l <- py_store (io m) io_offset value ;; Some (set_io m l).

Definition write_byte (m : Memory) (address value0 : Z) : option Memory :=
  let value := Z.land value0 0xFF in
  if address <? 0x2000 then Some (_handle_ram_enable m address value)
  else if address <? 0x4000 then Some (_handle_rom_bank_change m address value)
  else if address <? 0x6000 then Some (_handle_ram_bank_change m address value)
  else if address <? 0x8000 then Some (_handle_mode_select m address value)
  else if address <? 0xA000 then
    l <- py_store (vram m) (address - 0x8000) value ;; Some (set_vram m l)
  else if address <? 0xC000 then _write_cart_ram m address value
  else if address <? 0xE000 then
    l <- py_store (wram m) (address - 0xC000) value ;; Some (set_wram m l)
  else if address <? 0xFE00 then
    l <- py_store (wram m) (address - 0xE000) value ;; Some (set_wram m l)
  else if address <? 0xFEA0 then
    l <- py_store (oam m) (address - 0xFE00) value ;; Some (set_oam m l)
  else if address <? 0xFF00 then Some m
  else if address <? 0xFF80 then _write_io_register m address value
  else if address <? 0xFFFF then
    l <- py_store (hram m) (address - 0xFF80) value ;; Some (set_hram m l)
  else if address =? 0xFFFF then Some (set_ie_register m value)
  else Some m.

Definition read_word (m : Memory) (address : Z) : option Z :=
  low <- read_byte m address ;;
  high <- read_byte m (address + 1) ;;
  Some (Z.lor (Z.shiftl high 8) low).

Definition write_word (m : Memory) (address value : Z) : option Memory :=
  m1 <- write_byte m address (Z.land value 0xFF) ;;
  write_byte m1 (address + 1) (Z.land (Z.shiftr value 8) 0xFF).

Definition get_io_register (m : Memory) (address : Z) : option Z :=
  if (0xFF00 <=? address) && (address <=? 0xFF7F)
  then py_index (io m) (address - 0xFF00)
  else Some 0.

Definition set_io_register (m : Memory) (address value : Z) : option Memory :=
  if (0xFF00 <=? address) && (address <=? 0xFF7F)
  then l <- py_store (io m) (address - 0xFF00) (Z.land value 0xFF) ;;
       Some (set_io m l)
  else Some m.

(** A sequence of [write_byte] calls, stopping at the first exception. *)
Fixpoint write_all (m : Memory) (ws : list (Z * Z)) : option Memory :=
  match ws with
  | [] => Some m
  | (a, v) :: ws' => m1 <- write_byte m a v ;; write_all m1 ws'
  end.

(** A [bytes] object: its length and its byte at each index. *)
Record pybytes := mkBytes { blen : Z; bget : Z -> Z }.

(** [Memory._detect_mbc_type] *)
Definition _detect_mbc_type (m : Memory) (rom_data : pybytes) : Memory :=
  if blen rom_data <? 0x147 then m
  else
    let c := bget rom_data 0x147 in
    let t := if c =? 0x00 then ROM_ONLY
             else if existsb (Z.eqb c) [0x01; 0x02; 0x03] then MBC1
             else if existsb (Z.eqb c) [0x05; 0x06] then MBC2
             else if existsb (Z.eqb c) [0x0F; 0x10; 0x11; 0x12; 0x13] then MBC3
             else if existsb (Z.eqb c) [0x19; 0x1A; 0x1B; 0x1C; 0x1D; 0x1E]
             then MBC5
             else UNKNOWN in
    set_mbc_type m (Some t).

(** [Memory.load_rom]: the copy loop [self.rom[i] = rom_data[i]] for
    [i < min(len(rom_data), 2MB)] is written as one list update. *)
Definition mem_load_rom (m : Memory) (rom_data : pybytes) : option Memory :=
  if blen rom_data <? 0x8000 then None
  else
    let rom_size := Z.min (blen rom_data) (2 * 1024 * 1024) in
    let r := rom m in
    let r' := mkList (plen r) (fun k =>
                if (0 <=? k) && (k <? rom_size) then bget rom_data k
                else pget r k) in
    Some (_detect_mbc_type (set_rom m r') rom_data).

(** [Memory.load_boot_rom] *)
Definition load_boot_rom (m : Memory) (boot_rom_data : pybytes) : option Memory :=
  if negb (blen boot_rom_data =? 256) then None
  else Some (set_boot_rom_enabled
               (set_boot_rom m (Some (mkList 256 (bget boot_rom_data)))) true).

(** ** CPU registers (src/cpu/cpu.py, class Registers) *)

Record Registers := mkRegs {
  ra : Z; rf : Z; rb : Z; rc : Z; rd : Z; re : Z; rh : Z; rl : Z;
  pc : Z; sp : Z; cycles : Z
}.

Definition regs0 : Registers := mkRegs 0 0 0 0 0 0 0 0 0 0 0.

(** [Registers.reset] *)
Definition registers_reset (r : Registers) : Registers :=
  mkRegs 0 0 0 0 0 0 0 0 0 0 0.

Definition set_a r x := mkRegs x (rf r) (rb r) (rc r) (rd r) (re r) (rh r) (rl r) (pc r) (sp r) (cycles r).
Definition set_f r x := mkRegs (ra r) x (rb r) (rc r) (rd r) (re r) (rh r) (rl r) (pc r) (sp r) (cycles r).
Definition set_b r x := mkRegs (ra r) (rf r) x (rc r) (rd r) (re r) (rh r) (rl r) (pc r) (sp r) (cycles r).
Definition set_c r x := mkRegs (ra r) (rf r) (rb r) x (rd r) (re r) (rh r) (rl r) (pc r) (sp r) (cycles r).
Definition set_d r x := mkRegs (ra r) (rf r) (rb r) (rc r) x (re r) (rh r) (rl r) (pc r) (sp r) (cycles r).
Definition set_e r x := mkRegs (ra r) (rf r) (rb r) (rc r) (rd r) x (rh r) (rl r) (pc r) (sp r) (cycles r).
Definition set_h r x := mkRegs (ra r) (rf r) (rb r) (rc r) (rd r) (re r) x (rl r) (pc r) (sp r) (cycles r).
Definition set_l r x := mkRegs (ra r) (rf r) (rb r) (rc r) (rd r) (re r) (rh r) x (pc r) (sp r) (cycles r).
Definition set_pc r x := mkRegs (ra r) (rf r) (rb r) (rc r) (rd r) (re r) (rh r) (rl r) x (sp r) (cycles r).
Definition set_sp r x := mkRegs (ra r) (rf r) (rb r) (rc r) (rd r) (re r) (rh r) (rl r) (pc r) x (cycles r).
Definition set_cycles r x := mkRegs (ra r) (rf r) (rb r) (rc r) (rd r) (re r) (rh r) (rl r) (pc r) (sp r) x.

(** The 16-bit views: [(hi << 8) | lo] on read, split and masked on write. *)
Definition get_af r := Z.lor (Z.shiftl (ra r) 8) (rf r).
Definition get_bc r := Z.lor (Z.shiftl (rb r) 8) (rc r).
Definition get_de r := Z.lor (Z.shiftl (rd r) 8) (re r).
Definition get_hl r := Z.lor (Z.shiftl (rh r) 8) (rl r).
Definition set_af r v := set_f (set_a r (Z.land (Z.shiftr v 8) 0xFF)) (Z.land v 0xFF).
Definition set_bc r v := set_c (set_b r (Z.land (Z.shiftr v 8) 0xFF)) (Z.land v 0xFF).
Definition set_de r v := set_e (set_d r (Z.land (Z.shiftr v 8) 0xFF)) (Z.land v 0xFF).
Definition set_hl r v := set_l (set_h r (Z.land (Z.shiftr v 8) 0xFF)) (Z.land v 0xFF).

(** Flag setters: [f |= mask] or [f &= ~mask]. *)
Definition set_flag (mask : Z) r (v : bool) :=
  set_f r (if v then Z.lor (rf r) mask else Z.land (rf r) (Z.lnot mask)).
Definition set_flag_z := set_flag 0x80.
Definition set_flag_n := set_flag 0x40.
Definition set_flag_h := set_flag 0x20.
Definition set_flag_c := set_flag 0x10.
Definition flag_z r := negb (Z.land (rf r) 0x80 =? 0).
Definition flag_c r := negb (Z.land (rf r) 0x10 =? 0).
Definition flag_n r := negb (Z.land (rf r) 0x40 =? 0).
Definition flag_h r := negb (Z.land (rf r) 0x20 =? 0).

(** ** CPU (class CPU) *)

Record CPU := mkCPU {
  registers : Registers;
  halted : bool;
  stopped : bool;
  ime : bool;
  current_opcode : Z
}.

Definition cpu0 : CPU := mkCPU regs0 false false false 0.

Definition set_registers c r := mkCPU r (halted c) (stopped c) (ime c) (current_opcode c).
Definition set_ime c b := mkCPU (registers c) (halted c) (stopped c) b (current_opcode c).
Definition set_current_opcode c o := mkCPU (registers c) (halted c) (stopped c) (ime c) o.

(** [CPU.reset] *)
Definition cpu_reset (c : CPU) : CPU :=
  mkCPU (registers_reset (registers c)) false false false 0.

(** An instruction body: CPU and memory in, CPU, memory and cycles out. *)
Definition Instr := CPU -> Memory -> option (CPU * Memory * Z).

Definition upd (c : CPU) (f : Registers -> Registers) : CPU :=
  set_registers c (f (registers c)).

Definition _nop : Instr := fun c m => Some (c, m, 4).

(** [LD rr, nn] with the setter of the pair. *)
Definition ld_rr_nn (setr : Registers -> Z -> Registers) : Instr := fun c m =>
  nn <- read_word m (pc (registers c) + 1) ;;
  Some (upd c (fun r => setr r nn), m, 12).
Definition _ld_bc_nn := ld_rr_nn set_bc.
Definition _ld_de_nn := ld_rr_nn set_de.
Definition _ld_hl_nn := ld_rr_nn set_hl.
Definition _ld_sp_nn := ld_rr_nn set_sp.

Definition _ld_hl_n : Instr := fun c m =>
  n <- read_byte m (pc (registers c) + 1) ;;
  m1 <- write_byte m (get_hl (registers c)) n ;;
  Some (c, m1, 12).

Definition _ld_a_hl : Instr := fun c m =>
  v <- read_byte m (get_hl (registers c)) ;;
  Some (upd c (fun r => set_a r v), m, 8).

(** [LD r, n] with the setter of the register. *)
Definition ld_r_n (setr : Registers -> Z -> Registers) : Instr := fun c m =>
  n <- read_byte m (pc (registers c) + 1) ;;
  Some (upd c (fun r => setr r n), m, 8).
Definition _ld_a_n := ld_r_n set_a.
Definition _ld_b_n := ld_r_n set_b.
Definition _ld_c_n := ld_r_n set_c.
Definition _ld_d_n := ld_r_n set_d.
Definition _ld_e_n := ld_r_n set_e.
Definition _ld_h_n := ld_r_n set_h.
Definition _ld_l_n := ld_r_n set_l.

(** [rr += d] through the pair's getter and setter (no wrap-around for SP). *)
Definition add_rr (getr : Registers -> Z) (setr : Registers -> Z -> Registers)
  (d : Z) : Instr := fun c m =>
  Some (upd c (fun r => setr r (getr r + d)), m, 8).
Definition _inc_bc := add_rr get_bc set_bc 1.
Definition _inc_de := add_rr get_de set_de 1.
Definition _inc_hl := add_rr get_hl set_hl 1.
Definition _inc_sp := add_rr sp set_sp 1.
Definition _dec_bc := add_rr get_bc set_bc (-1).
Definition _dec_de := add_rr get_de set_de (-1).
Definition _dec_hl := add_rr get_hl set_hl (-1).
Definition _dec_sp := add_rr sp set_sp (-1).

Definition _jp_nn : Instr := fun c m =>
  nn <- read_word m (pc (registers c) + 1) ;;
  Some (upd c (fun r => set_pc r nn), m, 16).

Definition jp_cond (cond : Registers -> bool) : Instr := fun c m =>
  nn <- read_word m (pc (registers c) + 1) ;;
  if cond (registers c) then Some (upd c (fun r => set_pc r nn), m, 16)
  else Some (c, m, 12).
Definition _jp_nz_nn := jp_cond (fun r => negb (flag_z r)).
Definition _jp_z_nn := jp_cond flag_z.
Definition _jp_nc_nn := jp_cond (fun r => negb (flag_c r)).
Definition _jp_c_nn := jp_cond flag_c.

Definition _call_nn : Instr := fun c m =>
  nn <- read_word m (pc (registers c) + 1) ;;
  let r1 := set_sp (registers c) (sp (registers c) - 2) in
  m1 <- write_word m (sp r1) (pc r1 + 3) ;;
  Some (set_registers c (set_pc r1 nn), m1, 24).

Definition _ret : Instr := fun c m =>
  ret_addr <- read_word m (sp (registers c)) ;;
  let r1 := set_sp (registers c) (sp (registers c) + 2) in
  Some (set_registers c (set_pc r1 ret_addr), m, 16).

Definition push_rr (getr : Registers -> Z) : Instr := fun c m =>
  let r1 := set_sp (registers c) (sp (registers c) - 2) in
  m1 <- write_word m (sp r1) (getr r1) ;;
  Some (set_registers c r1, m1, 16).
Definition _push_bc := push_rr get_bc.
Definition _push_de := push_rr get_de.
Definition _push_hl := push_rr get_hl.
Definition _push_af := push_rr get_af.

Definition pop_rr (setr : Registers -> Z -> Registers) : Instr := fun c m =>
  v <- read_word m (sp (registers c)) ;;
  let r1 := setr (registers c) v in
  Some (set_registers c (set_sp r1 (sp r1 + 2)), m, 12).
Definition _pop_bc := pop_rr set_bc.
Definition _pop_de := pop_rr set_de.
Definition _pop_hl := pop_rr set_hl.
Definition _pop_af := pop_rr set_af.

Definition _ei : Instr := fun c m => Some (set_ime c true, m, 4).
Definition _di : Instr := fun c m => Some (set_ime c false, m, 4).

(** [BIT b, r]: Z from the tested bit, N cleared, H set. *)
Definition bit_test (v bit : Z) (c : CPU) : CPU :=
  upd c (fun r =>
    set_flag_h (set_flag_n (set_flag_z r (Z.land v (Z.shiftl 1 bit) =? 0))
                  false) true).
Definition bit_reg (getr : Registers -> Z) (bit : Z) : Instr := fun c m =>
  Some (bit_test (getr (registers c)) bit c, m, 8).
Definition _bit_hl (bit : Z) : Instr := fun c m =>
  v <- read_byte m (get_hl (registers c)) ;;
  Some (bit_test v bit c, m, 12).

(** [CPU._build_cb_opcode_table]: entry [0x40 + reg * 8 + bit] for
    [reg, bit] in [0..7], registers in the order B C D E H L (HL) A. *)
Definition cb_opcodes (op : Z) : option Instr :=
  if (0x40 <=? op) && (op <? 0x80) then
    let reg := (op - 0x40) / 8 in
    let bit := (op - 0x40) mod 8 in
    Some (if reg =? 0 then bit_reg rb bit
          else if reg =? 1 then bit_reg rc bit
          else if reg =? 2 then bit_reg rd bit
          else if reg =? 3 then bit_reg re bit
          else if reg =? 4 then bit_reg rh bit
          else if reg =? 5 then bit_reg rl bit
          else if reg =? 6 then _bit_hl bit
          else bit_reg ra bit)
  else None.

(** [CPU._build_opcode_table]: the dictionary [opcodes]. *)
Definition opcodes (op : Z) : option Instr :=
  if op =? 0x00 then Some _nop
  else if op =? 0x01 then Some _ld_bc_nn
  else if op =? 0x11 then Some _ld_de_nn
  else if op =? 0x21 then Some _ld_hl_nn
  else if op =? 0x31 then Some _ld_sp_nn
  else if op =? 0x36 then Some _ld_hl_n
  else if op =? 0x7E then Some _ld_a_hl
  else if op =? 0x3E then Some _ld_a_n
  else if op =? 0x06 then Some _ld_b_n
  else if op =? 0x0E then Some _ld_c_n
  else if op =? 0x16 then Some _ld_d_n
  else if op =? 0x1E then Some _ld_e_n
  else if op =? 0x26 then Some _ld_h_n
  else if op =? 0x2E then Some _ld_l_n
  else if op =? 0x03 then Some _inc_bc
  else if op =? 0x13 then Some _inc_de
  else if op =? 0x23 then Some _inc_hl
  else if op =? 0x33 then Some _inc_sp
  else if op =? 0x0B then Some _dec_bc
  else if op =? 0x1B then Some _dec_de
  else if op =? 0x2B then Some _dec_hl
  else if op =? 0x3B then Some _dec_sp
  else if op =? 0xC3 then Some _jp_nn
  else if op =? 0xC2 then Some _jp_nz_nn
  else if op =? 0xCA then Some _jp_z_nn
  else if op =? 0xD2 then Some _jp_nc_nn
  else if op =? 0xDA then Some _jp_c_nn
  else if op =? 0xCD then Some _call_nn
  else if op =? 0xC9 then Some _ret
  else if op =? 0xC5 then Some _push_bc
  else if op =? 0xD5 then Some _push_de
  else if op =? 0xE5 then Some _push_hl
  else if op =? 0xF5 then Some _push_af
  else if op =? 0xC1 then Some _pop_bc
  else if op =? 0xD1 then Some _pop_de
  else if op =? 0xE1 then Some _pop_hl
  else if op =? 0xF1 then Some _pop_af
  else if op =? 0xFB then Some _ei
  else if op =? 0xF3 then Some _di
  else None.

Definition _execute_cb_instruction (cb_opcode : Z) : Instr := fun c m =>
  match cb_opcodes cb_opcode with
  | Some i => i c m
  | None => Some (c, m, 8)
  end.

Definition _execute_instruction : Instr := fun c m =>
  let opcode := current_opcode c in
  if opcode =? 0xCB then
    let c1 := upd c (fun r => set_pc r (pc r + 1)) in
    cb_opcode <- read_byte m (pc (registers c1)) ;;
    _execute_cb_instruction cb_opcode c1 m
  else match opcodes opcode with
       | Some i => i c m
       | None => Some (c, m, 4)
       end.

Definition _get_instruction_length (c : CPU) : Z :=
  let opcode := current_opcode c in
  if opcode =? 0xCB then 2
  else if existsb (Z.eqb opcode) [0xC4; 0xCC; 0xCD; 0xD4; 0xDC; 0xE4; 0xEC; 0xF4]
  then 3
  else if existsb (Z.eqb opcode) [0xC9; 0xD9] then 1
  else if existsb (Z.eqb opcode)
            [0xC3; 0xC2; 0xCA; 0xD2; 0xDA; 0xE2; 0xEA; 0xF2; 0xFA] then 3
  else if existsb (Z.eqb opcode) [0x01; 0x11; 0x21; 0x31] then 3
  else if existsb (Z.eqb opcode) [0x06; 0x0E; 0x16; 0x1E; 0x26; 0x2E; 0x36]
  then 2
  else 1.

(** [CPU.step] *)
Definition cpu_step : Instr := fun c m =>
  if halted c then Some (c, m, 4)
  else
    op <- read_byte m (pc (registers c)) ;;
    let c1 := set_current_opcode c op in
    res <- _execute_instruction c1 m ;;
    let '(c2, m2, cyc) := res in
    let len := _get_instruction_length c2 in
    let c3 := upd c2 (fun r => set_cycles (set_pc r (pc r + len)) (cycles r + cyc)) in
    Some (c3, m2, cyc).

(** ** Interrupts and timer (src/core/emulator.py) *)

Inductive irq := VBLANK | STAT | TIMER | SERIAL | JOYPAD.

(** The dictionary [self.interrupts], in its insertion (priority) order. *)
Definition interrupts : list (irq * Z) :=
  [(VBLANK, 0x40); (STAT, 0x48); (TIMER, 0x50); (SERIAL, 0x58); (JOYPAD, 0x60)].

Definition irq_addr (t : irq) : Z :=
  match t with
  | VBLANK => 0x40 | STAT => 0x48 | TIMER => 0x50 | SERIAL => 0x58 | JOYPAD => 0x60
  end.

(** [InterruptHandler.request_interrupt]: sets the IF bit in [io[0x0F]] and
    emits the debug line "Interrupt requested: ..."; the emitted lines are
    kept as a log. *)
Definition request_interrupt (m : Memory) (log : list irq) (t : irq)
  : option (Memory * list irq) :=
  let bit := (irq_addr t - 0x40) / 8 in
  v <- py_index (io m) 0x0F ;;
  l <- py_store (io m) 0x0F (Z.lor v (Z.shiftl 1 bit)) ;;
  Some (set_io m l, log ++ [t]).

Definition get_enabled_interrupts (m : Memory) : option Z := py_index (io m) 0xFF.
Definition get_interrupt_flags (m : Memory) : option Z := py_index (io m) 0x0F.

(** [InterruptHandler.clear_interrupt] *)
Definition clear_interrupt (m : Memory) (t : irq) : option Memory :=
  let bit := (irq_addr t - 0x40) / 8 in
  v <- py_index (io m) 0x0F ;;
  l <- py_store (io m) 0x0F (Z.land v (Z.lnot (Z.shiftl 1 bit))) ;;
  Some (set_io m l).

Definition _execute_interrupt (c : CPU) (m : Memory) (address : Z)
  : option (CPU * Memory) :=
  let c1 := set_ime c false in
  let bit := (address - 0x40) / 8 in
  v <- py_index (io m) 0x0F ;;
  l <- py_store (io m) 0x0F (Z.land v (Z.lnot (Z.shiftl 1 bit))) ;;
  let m1 := set_io m l in
  let c2 := upd c1 (fun r => set_sp r (sp r - 2)) in
  m2 <- write_word m1 (sp (registers c2)) (pc (registers c2)) ;;
  Some (upd c2 (fun r => set_pc r address), m2).

(** [InterruptHandler.handle_interrupts]: the bool says whether an
    interrupt was dispatched. *)
Definition handle_interrupts (c : CPU) (m : Memory) : option (CPU * Memory * bool) :=
  if negb (ime c) then Some (c, m, false)
  else
    ie <- get_enabled_interrupts m ;;
    iflags <- get_interrupt_flags m ;;
    let fix go (l : list (irq * Z)) :=
      match l with
      | [] => Some (c, m, false)
      | (_, addr) :: l' =>
          let bit := (addr - 0x40) / 8 in
          if negb (Z.land ie (Z.shiftl 1 bit) =? 0)
             && negb (Z.land iflags (Z.shiftl 1 bit) =? 0)
          then r <- _execute_interrupt c m addr ;; Some (fst r, snd r, true)
          else go l'
      end in
    go interrupts.

Record Timer := mkTimer { div_counter : Z; tima_counter : Z }.

Definition timer0 : Timer := mkTimer 0 0.

Definition _is_timer_enabled (m : Memory) : option bool :=
  tac <- py_index (io m) 0x07 ;; Some (negb (Z.land tac 0x04 =? 0)).

Definition _increment_tima (m : Memory) (log : list irq)
  : option (Memory * list irq) :=
  tima <- py_index (io m) 0x05 ;;
  if tima =? 0xFF then
    tma <- py_index (io m) 0x06 ;;
    l <- py_store (io m) 0x05 tma ;;
    request_interrupt (set_io m l) log TIMER
  else
    l <- py_store (io m) 0x05 (tima + 1) ;; Some (set_io m l, log).

(** [Timer.step] *)
Definition timer_step (t : Timer) (m : Memory) (log : list irq) (cyc : Z)
  : option (Timer * Memory * list irq) :=
  let dc := div_counter t + cyc in
  md <- (if dc >=? 256 then
           d <- py_index (io m) 0x04 ;;
           l <- py_store (io m) 0x04 (Z.land (d + 1) 0xFF) ;;
           Some (dc - 256, set_io m l)
         else Some (dc, m)) ;;
  let '(dc1, m1) := md in
  en <- _is_timer_enabled m1 ;;
  if en then
    let tc := tima_counter t + cyc in
    tac <- py_index (io m1) 0x07 ;;
    let clock_select := Z.land tac 0x03 in
    freq <- nth_error [1024; 16; 64; 256] (Z.to_nat clock_select) ;;
    let threshold := 4194304 / freq in
    if tc >=? threshold then
      r <- _increment_tima m1 log ;;
      Some (mkTimer dc1 (tc - threshold), fst r, snd r)
    else Some (mkTimer dc1 tc, m1, log)
  else Some (mkTimer dc1 (tima_counter t), m1, log).

(** ** PPU mode machine (src/gpu/ppu.py)

    The frame buffer, palettes and scanline rendering are left out: the
    rendering only reads memory and writes the PPU's own frame buffer. *)

Record PPU := mkPPU { mode : Z; mode_clock : Z; line : Z }.

(** [PPU.__init__] and [PPU.reset] *)
Definition ppu0 : PPU := mkPPU 0 0 0.
Definition ppu_reset (p : PPU) : PPU := mkPPU 0 0 0.

(** [PPU._request_vblank_interrupt] *)
Definition _request_vblank_interrupt (m : Memory) : option Memory :=
  if_reg <- get_io_register m 0x0F ;;
  set_io_register m 0x0F (Z.lor if_reg 0x01).

(** [PPU.step] *)
Definition ppu_step (p : PPU) (m : Memory) (cyc : Z) : option (PPU * Memory) :=
  lcdc <- get_io_register m 0xFF40 ;;
  if Z.land lcdc 0x80 =? 0 then Some (p, m)
  else
    let mc := mode_clock p + cyc in
    if mode p =? 0 then
      if mc >=? 204 then
        let ln := line p + 1 in
        if ln =? 144 then
          m1 <- _request_vblank_interrupt m ;; Some (mkPPU 1 0 ln, m1)
        else Some (mkPPU 2 0 ln, m)
      else Some (mkPPU (mode p) mc (line p), m)
    else if mode p =? 1 then
      if mc >=? 456 then
        let ln := line p + 1 in
        if ln >? 153 then Some (mkPPU 2 0 0, m)
        else Some (mkPPU 1 0 ln, m)
      else Some (mkPPU (mode p) mc (line p), m)
    else if mode p =? 2 then
      if mc >=? 80 then Some (mkPPU 3 0 (line p), m)
      else Some (mkPPU (mode p) mc (line p), m)
    else if mode p =? 3 then
      if mc >=? 172 then Some (mkPPU 0 0 (line p), m)
      else Some (mkPPU (mode p) mc (line p), m)
    else Some (mkPPU (mode p) mc (line p), m).

(** ** Joypad (src/input/joypad.py) *)

Inductive button := Up | Down | Left | Right | A | B | Select | Start.

Definition button_eqb (x y : button) : bool :=
  match x, y with
  | Up, Up | Down, Down | Left, Left | Right, Right | A, A | B, B
  | Select, Select | Start, Start => true
  | _, _ => false
  end.

Record Joypad := mkJoypad {
  buttons_pressed : list button;
  directions_pressed : list button;
  select_directions : bool;
  select_buttons : bool
}.

Definition joypad0 : Joypad := mkJoypad [] [] false false.

Definition pressed (b : button) (l : list button) : bool := existsb (button_eqb b) l.

(** [Joypad._update_joypad_register] *)
Definition _update_joypad_register (j : Joypad) (m : Memory) : option Memory :=
  let clr (p : Z) (cond : bool) (mask : Z) := if cond then Z.land p (Z.lnot mask) else p in
  let p1 := 0xFF in
  let p1 := if select_directions j then
              let d := directions_pressed j in
              clr (clr (clr (clr p1 (pressed Down d) 0x08) (pressed Up d) 0x04)
                     (pressed Left d) 0x02) (pressed Right d) 0x01
            else p1 in
  let p1 := if select_buttons j then
              let b := buttons_pressed j in
              clr (clr (clr (clr p1 (pressed Start b) 0x08) (pressed Select b) 0x04)
                     (pressed B b) 0x02) (pressed A b) 0x01
            else p1 in
  current_p1 <- get_io_register m 0xFF00 ;;
  let selection_bits := Z.land current_p1 0x30 in
  set_io_register m 0xFF00 (Z.lor selection_bits (Z.land p1 0x0F)).

(** [Joypad.reset] (through [InputManager.reset]) *)
Definition joypad_reset (j : Joypad) (m : Memory) : option (Joypad * Memory) :=
  let j1 := mkJoypad [] [] (select_directions j) (select_buttons j) in
  m1 <- _update_joypad_register j1 m ;; Some (j1, m1).

(** [GameboyEmulator._handle_input]: [handle_io_read(0xFF00)] refreshes P1
    through [handle_register_read]. *)
Definition _handle_input (j : Joypad) (m : Memory) : option Memory :=
  p1 <- get_io_register m 0xFF00 ;;
  if (Z.land p1 0x10 =? 0) || (Z.land p1 0x20 =? 0)
  then _update_joypad_register j m
  else Some m.

(** [str.lower()] on the ASCII letters (the keys of [key_mappings] are
    ASCII). *)
Definition ascii_lower (c : ascii) : ascii :=
  let n := nat_of_ascii c in
  if (65 <=? n)%nat && (n <=? 90)%nat then ascii_of_nat (n + 32) else c.
Fixpoint str_lower (s : string) : string :=
  match s with
  | EmptyString => EmptyString
  | String c s' => String (ascii_lower c) (str_lower s')
  end.

(** [Joypad.key_mappings] *)
Definition key_mappings (key : string) : option (list button) :=
  if String.eqb key "up" then Some [Up]
  else if String.eqb key "down" then Some [Down]
  else if String.eqb key "left" then Some [Left]
  else if String.eqb key "right" then Some [Right]
  else if String.eqb key "z" then Some [A]
  else if String.eqb key "x" then Some [B]
  else if String.eqb key "return" then Some [Start]
  else if String.eqb key "shift" then Some [Select]
  else None.

(** [button in ['up', 'down', 'left', 'right']] *)
Definition is_direction (b : button) : bool :=
  match b with Up | Down | Left | Right => true | _ => false end.

(** [set.add] and [set.discard] on a set kept as a duplicate-free list. *)
Definition set_add (b : button) (l : list button) : list button :=
  if pressed b l then l else l ++ [b].
Definition set_discard (b : button) (l : list button) : list button :=
  filter (fun x => negb (button_eqb b x)) l.

Definition set_buttons j l :=
  mkJoypad l (directions_pressed j) (select_directions j) (select_buttons j).
Definition set_directions j l :=
  mkJoypad (buttons_pressed j) l (select_directions j) (select_buttons j).

(** [Joypad.key_press] *)
Definition key_press (j : Joypad) (m : Memory) (key0 : string)
  : option (Joypad * Memory) :=
  let key := str_lower key0 in
  match key_mappings key with
  | None => Some (j, m)
  | Some bs =>
      let j1 := fold_left (fun j b =>
                  if is_direction b then set_directions j (set_add b (directions_pressed j))
                  else set_buttons j (set_add b (buttons_pressed j))) bs j in
      m1 <- _update_joypad_register j1 m ;; Some (j1, m1)
  end.

(** [Joypad.key_release] *)
Definition key_release (j : Joypad) (m : Memory) (key0 : string)
  : option (Joypad * Memory) :=
  let key := str_lower key0 in
  match key_mappings key with
  | None => Some (j, m)
  | Some bs =>
      let j1 := fold_left (fun j b =>
                  if is_direction b then set_directions j (set_discard b (directions_pressed j))
                  else set_buttons j (set_discard b (buttons_pressed j))) bs j in
      m1 <- _update_joypad_register j1 m ;; Some (j1, m1)
  end.

(** [Joypad.handle_register_write] *)
Definition handle_register_write (j : Joypad) (m : Memory) (value : Z)
  : option (Joypad * Memory) :=
  let j1 := mkJoypad (buttons_pressed j) (directions_pressed j)
              (Z.land value 0x10 =? 0) (Z.land value 0x20 =? 0) in
  m1 <- _update_joypad_register j1 m ;; Some (j1, m1).

(** [Joypad.handle_register_read] *)
Definition handle_register_read (j : Joypad) (m : Memory) : option (Z * Memory) :=
  _current_p1 <- get_io_register m 0xFF00 ;;
  m1 <- _update_joypad_register j m ;;
  v <- get_io_register m1 0xFF00 ;; Some (v, m1).

(** [Joypad.is_button_pressed] *)
Definition is_button_pressed (j : Joypad) (b : button) : bool :=
  if is_direction b then pressed b (directions_pressed j)
  else pressed b (buttons_pressed j).

(** [InputManager.handle_io_write] and [InputManager.handle_io_read] *)
Definition handle_io_write (j : Joypad) (m : Memory) (address value : Z)
  : option (Joypad * Memory) :=
  if address =? 0xFF00 then handle_register_write j m value else Some (j, m).
Definition handle_io_read (j : Joypad) (m : Memory) (address : Z)
  : option (Z * Memory) :=
  if address =? 0xFF00 then handle_register_read j m else Some (0xFF, m).

(** ** APU (src/apu/apu.py)

    [NoiseChannel.__init__] never assigns [envelope_enabled],
    [envelope_timer], [envelope_period], [envelope_direction] or
    [envelope_volume]: those attributes are [option]s, [None] until assigned,
    and reading an unassigned one raises AttributeError.

    The two pulse channels and the wave channel are left out: [trigger] has
    no caller in the program, every attribute that their [step] and the
    envelope and sweep branches of [_update_frame_sequencer] read is
    assigned in their [__init__], and those methods write only the
    channel's own fields. The float samples, mixed into [audio_buffer], are
    left out too; [_get_master_volume] is kept for its two register reads. *)

Record NoiseChannel := mkNoise {
  noise_enabled : bool;
  noise_volume : Z;
  noise_lfsr : Z;
  noise_period : Z;
  noise_timer : Z;
  noise_lfsr_width : Z;
  noise_envelope_enabled : option bool;
  noise_envelope_timer : option Z;
  noise_envelope_period : option Z;
  noise_envelope_direction : option Z;
  noise_envelope_volume : option Z
}.

(** [NoiseChannel.__init__] (with [AudioChannel.__init__]). *)
Definition noise0 : NoiseChannel :=
  mkNoise false 0 0x7FFF 0 0 0 None None None None None.

(** [NoiseChannel._update_envelope] *)
Definition noise_update_envelope (n : NoiseChannel) : option NoiseChannel :=
  et0 <- noise_envelope_timer n ;;
  let et := if et0 >? 0 then et0 - 1 else et0 in
  ep_ok <- (if et =? 0 then
              ep <- noise_envelope_period n ;; Some (ep >? 0)
            else Some false) ;;
  if ep_ok then
    ep <- noise_envelope_period n ;;
    ed <- noise_envelope_direction n ;;
    ev0 <- noise_envelope_volume n ;;
    let ev := if ed =? 0 then (if ev0 >? 0 then ev0 - 1 else ev0)
              else (if ev0 <? 15 then ev0 + 1 else ev0) in
    let ee := if ((ed =? 0) && (ev =? 0)) || ((ed =? 1) && (ev =? 15))
              then Some false else noise_envelope_enabled n in
    Some (mkNoise (noise_enabled n) ev (noise_lfsr n) (noise_period n)
            (noise_timer n) (noise_lfsr_width n) ee (Some ep)
            (noise_envelope_period n) (Some ed) (Some ev))
  else
    Some (mkNoise (noise_enabled n) (noise_volume n) (noise_lfsr n)
            (noise_period n) (noise_timer n) (noise_lfsr_width n)
            (noise_envelope_enabled n) (Some et) (noise_envelope_period n)
            (noise_envelope_direction n) (noise_envelope_volume n)).

(** [NoiseChannel.step], the new channel state (the sample is left out). *)
Definition noise_step (n0 : NoiseChannel) (cycles : Z) : option NoiseChannel :=
  if negb (noise_enabled n0) then Some n0
  else
    ee <- noise_envelope_enabled n0 ;;
    n <- (if ee then noise_update_envelope n0 else Some n0) ;;
    let t := noise_timer n - cycles in
    if t <=? 0 then
      let lfsr := noise_lfsr n in
      let bit := Z.lxor (Z.land lfsr 1) (Z.land (Z.shiftr lfsr 1) 1) in
      let l1 := Z.lor (Z.shiftr lfsr 1) (Z.shiftl bit 14) in
      let l2 := if noise_lfsr_width n =? 7
                then Z.lor (Z.land l1 (Z.lnot (Z.shiftl 1 6))) (Z.shiftl bit 6)
                else l1 in
      Some (mkNoise (noise_enabled n) (noise_volume n) l2 (noise_period n)
              (t + noise_period n) (noise_lfsr_width n) (noise_envelope_enabled n)
              (noise_envelope_timer n) (noise_envelope_period n)
              (noise_envelope_direction n) (noise_envelope_volume n))
    else
      Some (mkNoise (noise_enabled n) (noise_volume n) (noise_lfsr n)
              (noise_period n) t (noise_lfsr_width n) (noise_envelope_enabled n)
              (noise_envelope_timer n) (noise_envelope_period n)
              (noise_envelope_direction n) (noise_envelope_volume n)).

Record APU := mkAPU {
  master_enable : bool;
  frame_sequencer : Z;
  frame_timer : Z;
  noise : NoiseChannel
}.

(** [APU.__init__] *)
Definition apu0 : APU := mkAPU true 0 0 noise0.

(** [APU.reset]: new channels, sequencer and timer back to 0. *)
Definition apu_reset (a : APU) : APU := mkAPU (master_enable a) 0 0 noise0.

(** [APU._update_frame_sequencer]: at steps 2 and 6 it reads
    [self.noise.envelope_enabled] (the pulse channels' envelopes, off, are
    left out as said above). *)
Definition _update_frame_sequencer (a : APU) : option APU :=
  let fs := (frame_sequencer a + 1) mod 8 in
  if (fs =? 2) || (fs =? 6) then
    ee <- noise_envelope_enabled (noise a) ;;
    n <- (if ee then noise_update_envelope (noise a) else Some (noise a)) ;;
    Some (mkAPU (master_enable a) fs (frame_timer a) n)
  else Some (mkAPU (master_enable a) fs (frame_timer a) (noise a)).

(** [APU._get_master_volume]: its reads of NR50 and NR51. *)
Definition _get_master_volume (m : Memory) : option (Z * Z) :=
  nr50 <- get_io_register m 0xFF24 ;;
  nr51 <- get_io_register m 0xFF25 ;;
  Some (nr50, nr51).

(** [APU.step] *)
Definition apu_step (a : APU) (m : Memory) (cycles : Z) : option APU :=
  if negb (master_enable a) then Some a
  else
    let ft := frame_timer a + cycles in
    a1 <- (if ft >=? 8192
           then _update_frame_sequencer
                  (mkAPU (master_enable a) (frame_sequencer a) (ft - 8192) (noise a))
           else Some (mkAPU (master_enable a) (frame_sequencer a) ft (noise a))) ;;
    n <- noise_step (noise a1) cycles ;;
    _ <- _get_master_volume m ;;
    Some (mkAPU (master_enable a1) (frame_sequencer a1) (frame_timer a1) n).

(** ** The emulator (class GameboyEmulator) *)

Record Gameboy := mkGameboy {
  mem : Memory;
  cpu : CPU;
  ppu : PPU;
  apu : APU;
  timer : Timer;
  joypad : Joypad;
  irq_log : list irq;
  running : bool;
  paused : bool;
  frame_count : Z;
  cycle_count : Z
}.

(** [GameboyEmulator.__init__] *)
Definition gameboy0 : Gameboy :=
  mkGameboy init_memory cpu0 ppu0 apu0 timer0 joypad0 [] false false 0 0.

Definition set_mem g m := mkGameboy m (cpu g) (ppu g) (apu g) (timer g) (joypad g)
  (irq_log g) (running g) (paused g) (frame_count g) (cycle_count g).
Definition set_cpu g c := mkGameboy (mem g) c (ppu g) (apu g) (timer g) (joypad g)
  (irq_log g) (running g) (paused g) (frame_count g) (cycle_count g).
Definition set_running g b := mkGameboy (mem g) (cpu g) (ppu g) (apu g) (timer g)
  (joypad g) (irq_log g) b (paused g) (frame_count g) (cycle_count g).

(** [GameboyEmulator.load_rom], with the file contents given: [rom_data]
    and, when the file [<rom>_boot.gb] exists, its contents [boot].
    An exception is caught and reported as [false]. *)
Definition load_rom (g : Gameboy) (rom_data : pybytes) (boot : option pybytes)
  : Gameboy * bool :=
  match mem_load_rom (mem g) rom_data with
  | None => (g, false)
  | Some m1 =>
      let g1 := set_mem g m1 in
      match boot with
      | Some bd =>
          match load_boot_rom m1 bd with
          | None => (g1, false)
          | Some m2 =>
              let g2 := set_mem g1 m2 in
              (set_cpu g2 (set_ime (upd (cpu g2) (fun r =>
                 set_sp (set_pc r 0x0100) 0xFFFE)) false), true)
          end
      | None =>
          (set_cpu g1 (set_ime (upd (cpu g1) (fun r =>
             set_sp (set_pc r 0x0100) 0xFFFE)) false), true)
      end
  end.

(** [GameboyEmulator.reset] *)
Definition reset (g : Gameboy) : option Gameboy :=
  let m1 := memory_reset (mem g) in
  let c1 := cpu_reset (cpu g) in
  let p1 := ppu_reset (ppu g) in
  let a1 := apu_reset (apu g) in
  jm <- joypad_reset (joypad g) m1 ;;
  let '(j1, m2) := jm in
  Some (mkGameboy m2 c1 p1 a1 (timer g) j1 (irq_log g) (running g) (paused g) 0 0).

(** One pass of the [while] loop of [GameboyEmulator.run_frame] when not
    paused: the new state and the new [frame_cycles]. *)
Definition run_frame_iter (g : Gameboy) (frame_cycles : Z) : option (Gameboy * Z) :=
  r <- cpu_step (cpu g) (mem g) ;;
  let '(c1, m1, cyc) := r in
  let fc := frame_cycles + cyc in
  let cc := cycle_count g + cyc in
  t <- timer_step (timer g) m1 (irq_log g) cyc ;;
  let '(t1, m2, log2) := t in
  p <- ppu_step (ppu g) m2 cyc ;;
  let '(p1, m3) := p in
  a1 <- apu_step (apu g) m3 cyc ;;
  h <- handle_interrupts c1 m3 ;;
  let '(c2, m4, _) := h in
  m5 <- _handle_input (joypad g) m4 ;;
  ml <- (if fc >=? 70224 - 4560 then request_interrupt m5 log2 VBLANK
         else Some (m5, log2)) ;;
  let '(m6, log6) := ml in
  Some (mkGameboy m6 c2 p1 a1 t1 (joypad g) log6 (running g) (paused g)
          (frame_count g) cc, fc).



(** ** Cartridge header checksum (src/core/cartridge.py) *)

(** [rom_data[i]] of a [bytes] object given as a list. *)
Definition byte_at (rom_data : list Z) (i : Z) : Z := nth (Z.to_nat i) rom_data 0.

(** [self.header.get('header_checksum', 0)]: [_parse_header] stores
    [rom_data[0x14D]] when the image has at least 0x150 bytes. *)
Definition header_checksum (rom_data : list Z) : Z :=
  if Z.of_nat (List.length rom_data) <? 0x150 then 0 else byte_at rom_data 0x14D.

(** [Cartridge.validate_checksum] *)
Definition validate_checksum (rom_data : list Z) : bool :=
  if Z.of_nat (List.length rom_data) <? 0x150 then false
  else
    let checksum :=
      fold_left (fun cs i => Z.land (cs - byte_at rom_data i - 1) 0xFF)
        (map Z.of_nat (seq 0x134 (0x14D - 0x134))) 0 in
    checksum =? header_checksum rom_data.

(** The ROM-size table of [Cartridge._parse_header] (byte 0x148). *)
Definition rom_sizes (code : Z) : option Z :=
  if code =? 0x00 then Some 2 else if code =? 0x01 then Some 4
  else if code =? 0x02 then Some 8 else if code =? 0x03 then Some 16
  else if code =? 0x04 then Some 32 else if code =? 0x05 then Some 64
  else if code =? 0x06 then Some 128 else if code =? 0x07 then Some 256
  else if code =? 0x08 then Some 512 else None.

(** [self.rom_banks = self.header.get('rom_banks', 2)] *)
Definition rom_banks (rom_data : list Z) : Z :=
  if Z.of_nat (List.length rom_data) <? 0x150 then 2
  else match rom_sizes (byte_at rom_data 0x148) with Some n => n | None => 2 end.

(** [l[s:e]] on a list: negative bounds count from the end, bounds are
    clamped to [0, len(l)]. *)
Definition py_slice (l : list Z) (s e : Z) : list Z :=
  let n := Z.of_nat (List.length l) in
  let norm x := if x <? 0 then Z.max 0 (x + n) else Z.min x n in
  firstn (Z.to_nat (norm e - norm s)) (skipn (Z.to_nat (norm s)) l).

(** [Cartridge.get_rom_bank] *)
Definition get_rom_bank (rom_data : list Z) (bank_number : Z) : list Z :=
  if bank_number >=? rom_banks rom_data then []
  else
    let start := bank_number * 0x4000 in
    let end_ := start + 0x4000 in
    let end_ := if end_ >? Z.of_nat (List.length rom_data)
                then Z.of_nat (List.length rom_data) else end_ in
    py_slice rom_data start end_.

(** ** Concrete ROM images *)

(** A 32 KiB image with [code] at 0x0100 and the cartridge type byte
    [cart_type] at 0x0147 (the code is short enough not to reach it). *)
Definition rom_image (code : list Z) (cart_type : Z) : pybytes :=
  mkBytes 0x8000 (fun i =>
    if (0x100 <=? i) && (i <? 0x100 + Z.of_nat (List.length code))
    then nth (Z.to_nat (i - 0x100)) code 0
    else if i =? 0x147 then cart_type else 0).

(** The emulator after [GameboyEmulator()] and a successful [load_rom]
    without a boot ROM file. *)
Definition loaded (code : list Z) (cart_type : Z) : Gameboy :=
  fst (load_rom gameboy0 (rom_image code cart_type) None).

(** [n] calls of [CPU.step]. *)
Fixpoint cpu_steps (n : nat) (c : CPU) (m : Memory) : option (CPU * Memory) :=
  match n with
  | O => Some (c, m)
  | S k => r <- cpu_step c m ;; let '(c1, m1, _) := r in cpu_steps k c1 m1
  end.

(** The header checksum as the claim words it:
    [((sum over 0x134..0x14C of ~byte) - 12) & 0xFF]. *)
Definition claim_checksum_formula (rom_data : list Z) : Z :=
  Z.land (fold_right (fun i acc => Z.lnot (byte_at rom_data i) + acc) 0
            (map Z.of_nat (seq 0x134 (0x14D - 0x134))) - 12) 0xFF.

(** The sum the code computes: [(sum over 0x134..0x14C of ~byte) & 0xFF]. *)
Definition complement_sum_checksum (rom_data : list Z) : Z :=
  Z.land (fold_right (fun i acc => Z.lnot (byte_at rom_data i) + acc) 0
            (map Z.of_nat (seq 0x134 (0x14D - 0x134)))) 0xFF.


(** Well-formed memory: the fixed list sizes of [Memory.__init__], byte
    contents, a 256-byte boot ROM when one is loaded, and bank numbers as
    the bank registers can hold them. *)
Definition bytes_ok (l : pylist) : Prop :=
  forall i, 0 <= i < plen l -> 0 <= pget l i <= 255.

Record mem_wf (m : Memory) : Prop := {
  wf_rom_len : plen (rom m) = 2 * 1024 * 1024;
  wf_rom : bytes_ok (rom m);
  wf_wram_len : plen (wram m) = 8 * 1024;
  wf_wram : bytes_ok (wram m);
  wf_vram_len : plen (vram m) = 8 * 1024;
  wf_vram : bytes_ok (vram m);
  wf_oam_len : plen (oam m) = 160;
  wf_oam : bytes_ok (oam m);
  wf_hram_len : plen (hram m) = 127;
  wf_hram : bytes_ok (hram m);
  wf_io_len : plen (io m) = 128;
  wf_io : bytes_ok (io m);
  wf_ie : 0 <= ie_register m <= 255;
  wf_boot : match boot_rom m with
            | Some b => plen b = 256 /\ bytes_ok b
            | None => True
            end;
  wf_cart_ram_len : 0 <= plen (cart_ram m);
  wf_cart_ram : bytes_ok (cart_ram m);
  wf_rom_bank : 1 <= rom_bank m;
  wf_ram_bank : 0 <= ram_bank m
}.

(** [Some] test of an [option], to check concrete runs succeed. *)
Definition is_some {A} (o : option A) : bool :=
  match o with Some _ => true | None => false end.


(** [n] passes of the [run_frame] loop body, [frame_cycles] threaded. *)
Fixpoint frame_passes (n : nat) (g : Gameboy) (fc : Z) : option (Gameboy * Z) :=
  match n with
  | O => Some (g, fc)
  | S k => r <- run_frame_iter g fc ;; frame_passes k (fst r) (snd r)
  end.



(** ** Concrete machines *)

(** [LD A, 0x42; JR -2] at 0x0100. *)
Definition ld_a_rom : Gameboy := loaded [0x3E; 0x42; 0x18; 0xFE] 0x00.

(** [LD BC, 0x000F; PUSH BC; POP AF] at 0x0100. *)
Definition pop_af_rom : Gameboy := loaded [0x01; 0x0F; 0x00; 0xC5; 0xF1] 0x00.

(** A ROM-only cartridge of NOPs, the emulator started. *)
Definition nop_rom_running : Gameboy := set_running (loaded [] 0x00) true.

(** An MBC1 cartridge (type 0x01). *)
Definition mbc1_mem : Memory := mem (loaded [] 0x01).

(** A cartridge with a 256-byte boot ROM file whose bytes are all 0x31. *)
Definition boot_loaded_mem : Memory :=
  mem (fst (load_rom gameboy0 (rom_image [] 0x00)
              (Some (mkBytes 256 (fun _ => 0x31))))).

(** TAC=0x05, TIMA=0xFF, TMA=0x10 written through the bus. *)
Definition timer_mem : option Memory :=
  write_all init_memory [(0xFF07, 0x05); (0xFF05, 0xFF); (0xFF06, 0x10)].

(** IME=1 after EI, IE=0x01 and IF=0x01 written through the bus. *)
Definition irq_machine : option Gameboy :=
  m <- write_all (mem (loaded [] 0x00)) [(0xFFFF, 0x01); (0xFF0F, 0x01)] ;;
  Some (set_cpu (set_mem (loaded [] 0x00) m) (set_ime (cpu (loaded [] 0x00)) true)).

(** A header of zeros whose checksum byte 0x14D is 231. *)
Definition zero_header : list Z := repeat 0 0x14D ++ [231; 0; 0].

(** ** Further definitions: addresses backed by RAM, well-behaved
    instruction bodies, and small machines *)

(** Addresses whose writes are stored as given by [write_byte]. *)
Definition ram_address (a : Z) : Prop :=
  (0x8000 <= a < 0xA000) \/ (0xC000 <= a < 0xFEA0) \/ (0xFF80 <= a <= 0xFFFF)
  \/ (0xFF01 <= a < 0xFF80 /\ a <> 0xFF04 /\ a <> 0xFF44 /\ a <> 0xFF50).


(** An instruction body that keeps [halted] and [stopped] and changes the
    memory only through [write_byte]. *)
Definition instr_ok (i : Instr) : Prop :=
  forall c m c' m' cyc, i c m = Some (c', m', cyc) ->
  halted c' = halted c /\ stopped c' = stopped c
  /\ exists ws, write_all m ws = Some m'.

Definition jp_rom : Gameboy := loaded [0xC3; 0x50; 0x01] 0x00.
Definition call_ret_rom : Gameboy :=
  loaded ([0xCD; 0x50; 0x01] ++ repeat 0 0x50 ++ [0xC9]) 0x00.
Definition call_ret_cpu : CPU := upd (cpu call_ret_rom) (fun r => set_sp r 0xD000).
Definition bit_rom : Gameboy := loaded [0xCB; 0x78] 0x00.
Definition halt_rom : Gameboy := loaded [0x76] 0x00.
Definition mbc1_init : Memory := set_mbc_type init_memory (Some MBC1).
Definition tima_ff_mem : Memory :=
  set_io init_memory
    (mkList 128 (fun k => if k =? 7 then 0x05 else if k =? 5 then 0xFF
                          else init_io_value k)).

(** * Theorems *)

(** ** Concrete runs *)

(** C4 (code_bug): with [3E 42] at PC=0x0100, one [CPU.step] returns 8
    cycles and loads A=0x42, but PC ends at 0x0101: opcode 0x3E is missing
    from the two-byte list of [_get_instruction_length]. *)
Lemma ld_a_n_step_pc_0101 :
  exists c m, cpu_step (cpu ld_a_rom) (mem ld_a_rom) = Some (c, m, 8)
    /\ ra (registers c) = 0x42 /\ pc (registers c) = 0x0101.
Proof. vm_compute. eauto. Qed.

(** C2 (code_bug): from the loaded ROM, [LD BC,0x000F; PUSH BC; POP AF]
    leaves F=0x0F: [POP AF] keeps the low nibble of the popped byte. *)
Lemma pop_af_low_nibble_nonzero :
  exists c m, cpu_steps 3 (cpu pop_af_rom) (mem pop_af_rom) = Some (c, m)
    /\ rf (registers c) = 0x0F /\ Z.land (rf (registers c)) 0x0F <> 0.
Proof. vm_compute. do 2 eexists. split; [reflexivity | split; [reflexivity | discriminate]]. Qed.

(** C5 (code_bug): TAC=0x05, TIMA=0xFF, TMA=0x10, the timer stepped by
    16 T-cycles (once, or as four steps of 4): TIMA is still 0xFF and IF
    bit 2 is clear, because the threshold is [4194304 // 16 = 262144]. *)
Lemma timer_16_cycles_no_overflow :
  exists m,
    timer_mem = Some m /\
    (exists t m1 log, timer_step timer0 m [] 16 = Some (t, m1, log)
      /\ py_index (io m1) 0x05 = Some 0xFF
      /\ Z.testbit (match py_index (io m1) 0x0F with Some v => v | None => 0 end) 2 = false
      /\ tima_counter t = 16) /\
    (exists r, (r1 <- timer_step timer0 m [] 4 ;;
                r2 <- timer_step (fst (fst r1)) (snd (fst r1)) (snd r1) 4 ;;
                r3 <- timer_step (fst (fst r2)) (snd (fst r2)) (snd r2) 4 ;;
                timer_step (fst (fst r3)) (snd (fst r3)) (snd r3) 4) = Some r
      /\ py_index (io (snd (fst r))) 0x05 = Some 0xFF
      /\ Z.testbit (match py_index (io (snd (fst r))) 0x0F with Some v => v | None => 0 end) 2 = false).
Proof. vm_compute. eexists. split; [reflexivity|]. split; eauto 10. Qed.

(** C6 (code_bug): on an MBC1 cartridge, writing 0x0A to 0x0000 sets
    [ram_enabled] and allocates the RAM, yet a byte written to 0xA000 reads
    back as 0xFF: the RAM accessors test [cart_ram_enabled], which no write
    ever sets. *)
Lemma mbc1_ram_enable_has_no_effect :
  exists m, write_all mbc1_mem [(0x0000, 0x0A); (0xA000, 0x42)] = Some m
    /\ ram_enabled m = true /\ cart_ram_enabled m = false
    /\ read_byte m 0xA000 = Some 0xFF.
Proof. vm_compute. eauto. Qed.

(** C1, a concrete run: with IME=1, IE=0x01 and IF=0x01, handling the
    interrupts after a step dispatches nothing: [handle_interrupts] reads IE
    at [io[0xFF]] of the 128-entry I/O list and raises, so PC never becomes
    0x0040 and no 20 cycles are counted; the whole [run_frame] pass raises. *)
Lemma irq_dispatch_counterexample :
  option_map (fun g => (ime (cpu g), ie_register (mem g),
                        py_index (io (mem g)) 0x0F)) irq_machine
    = Some (true, 0x01, Some 0x01)
  /\ option_map (fun g => handle_interrupts (cpu g) (mem g)) irq_machine = Some None
  /\ option_map (fun g => run_frame_iter g 0) irq_machine = Some None.
Proof. split; [|split]; vm_compute; reflexivity. Qed.


(** C7 (counterexample): with a boot ROM loaded, writing the nonzero value
    0x02 to 0xFF50 leaves the overlay on: 0x0000 still reads the boot ROM
    byte 0x31, not the ROM byte 0x00. *)
Lemma ff50_even_write_keeps_boot_rom :
  option_map (fun m => (boot_rom_enabled m, read_byte m 0x0000,
                        py_index (rom m) 0x0000))
    (write_byte boot_loaded_mem 0xFF50 0x02)
  = Some (true, Some 0x31, Some 0x00).
Proof. vm_compute. reflexivity. Qed.

(** C8 (counterexample): [reset()] without a boot ROM leaves A=0, not 0x01,
    and PC=0, not 0x0100. *)
Lemma reset_not_post_boot_defaults :
  option_map (fun g => (boot_rom (mem g), ra (registers (cpu g)),
                        pc (registers (cpu g))))
    (reset (loaded [] 0x00))
  = Some (None, 0, 0).
Proof. vm_compute. reflexivity. Qed.

(** C9 (counterexample): for the 0x150-byte image of zeros with byte
    0x14D = 231, [validate_checksum] is true, but the claim's formula gives
    219. *)
Lemma checksum_formula_counterexample :
  Z.of_nat (List.length zero_header) = 0x150
  /\ validate_checksum zero_header = true
  /\ claim_checksum_formula zero_header = 219
  /\ byte_at zero_header 0x14D = 231
  /\ ~ (validate_checksum zero_header = true <->
        claim_checksum_formula zero_header = byte_at zero_header 0x14D).
Proof.
  vm_compute. repeat split; try reflexivity.
  intros [H _]. specialize (H eq_refl). discriminate H.
Qed.

(** ** Header checksum *)

Lemma land_255_mod (x : Z) : Z.land x 0xFF = x mod 256.
Proof. change 0xFF with (Z.ones 8). rewrite Z.land_ones by lia. reflexivity. Qed.

(** The checksum loop keeps the running value reduced mod 256. *)
Lemma checksum_loop (f : Z -> Z) (l : list Z) (c0 : Z) :
  fold_left (fun cs i => Z.land (cs - f i - 1) 0xFF) l (Z.land c0 0xFF)
  = Z.land (c0 + fold_right (fun i acc => Z.lnot (f i) + acc) 0 l) 0xFF.
Proof.
  revert c0. induction l as [|x l IH]; intro c0; simpl.
  - now rewrite Z.add_0_r.
  - replace (Z.land (Z.land c0 0xFF - f x - 1) 0xFF)
      with (Z.land (c0 - f x - 1) 0xFF).
    + rewrite IH. rewrite Z.lnot_eq_pred_opp. f_equal. lia.
    + rewrite !land_255_mod.
      replace (c0 mod 256 - f x - 1) with (c0 mod 256 + (- f x - 1)) by lia.
      rewrite Zplus_mod_idemp_l. f_equal. lia.
Qed.

(** C9 (amended): for an image of at least 0x150 bytes,
    [validate_checksum] holds exactly when the sum of the complemented bytes
    0x134..0x14C, taken mod 256, equals the byte at 0x14D (no -12 term). *)
Theorem validate_checksum_spec (rom_data : list Z) :
  0x150 <= Z.of_nat (List.length rom_data) ->
  validate_checksum rom_data = true
  <-> complement_sum_checksum rom_data = byte_at rom_data 0x14D.
Proof.
  intro Hlen. unfold validate_checksum, header_checksum, complement_sum_checksum.
  assert (Hb : (Z.of_nat (List.length rom_data) <? 0x150) = false)
    by (apply Z.ltb_ge; lia).
  rewrite Hb.
  pose proof (checksum_loop (byte_at rom_data)
                (map Z.of_nat (seq 0x134 (0x14D - 0x134))) 0) as H.
  change (Z.land 0 0xFF) with 0 in H. rewrite H, Z.add_0_l.
  apply Z.eqb_eq.
Qed.

Lemma validate_checksum_spec_witness :
  0x150 <= Z.of_nat (List.length zero_header)
  /\ (validate_checksum zero_header = true
      <-> complement_sum_checksum zero_header = byte_at zero_header 0x14D).
Proof.
  split; [vm_compute; discriminate|].
  apply validate_checksum_spec. vm_compute. discriminate.
Defined.

(** ** Reset *)

(** C8 (amended): [reset()] sets every CPU register to zero
    (A=F=B=C=D=E=H=L=0, SP=0, PC=0, cycle count 0) and unloads the boot
    ROM, from any emulator state. *)
Theorem reset_zeroes_registers (g : Gameboy) :
  exists g', reset g = Some g'
    /\ registers (cpu g') = mkRegs 0 0 0 0 0 0 0 0 0 0 0
    /\ boot_rom (mem g') = None /\ ime (cpu g') = false.
Proof.
  unfold reset, joypad_reset.
  destruct (joypad g) as [bp dp sd sb].
  destruct sd, sb; cbn; eexists; (split; [reflexivity|]); cbn; auto.
Qed.

(** ** The boot-ROM latch *)

(** Case analysis of a successful [write_byte], branch by branch. *)
Ltac split_opt H :=
  repeat (cbv beta iota in H; match type of H with
  | (if ?c then _ else _) = _ => let E := fresh "E" in destruct c eqn:E
  | (match ?o with Some _ => _ | None => _ end) = _ =>
      let E := fresh "E" in destruct o eqn:E
  | Some _ = Some _ => injection H as H
  | None = Some _ => discriminate H
  end).

Ltac write_byte_cases H :=
  unfold write_byte, _handle_ram_enable, _handle_rom_bank_change,
    _handle_ram_bank_change, _handle_mode_select, _write_cart_ram,
    _write_io_register, bind in H; cbv zeta in H; split_opt H; subst.

Lemma write_byte_rom (m m' : Memory) (a v : Z) :
  write_byte m a v = Some m' -> rom m' = rom m.
Proof. intro H. write_byte_cases H; reflexivity. Qed.

Lemma write_byte_boot_off (m m' : Memory) (a v : Z) :
  write_byte m a v = Some m' -> boot_rom_enabled m = false ->
  boot_rom_enabled m' = false.
Proof. intros H Hb. write_byte_cases H; simpl; auto. Qed.

Lemma write_all_rom_boot_off (m m' : Memory) (ws : list (Z * Z)) :
  write_all m ws = Some m' -> boot_rom_enabled m = false ->
  boot_rom_enabled m' = false /\ rom m' = rom m.
Proof.
  revert m. induction ws as [|[a v] ws IH]; intros m H Hb; simpl in H.
  - injection H as <-. auto.
  - unfold bind in H. destruct (write_byte m a v) as [m1|] eqn:E; [|discriminate].
    destruct (IH m1 H (write_byte_boot_off _ _ _ _ E Hb)) as [H1 H2].
    rewrite (write_byte_rom _ _ _ _ E) in H2. auto.
Qed.

Lemma land_byte_bit0 (v : Z) :
  (Z.land (Z.land v 0xFF) 1 =? 0) = negb (Z.odd v).
Proof.
  rewrite <- Z.land_assoc. change (Z.land 0xFF 1) with (Z.ones 1).
  rewrite Z.land_ones by lia. rewrite Zmod_odd. now destruct (Z.odd v).
Qed.

Lemma write_ff50_odd (m m' : Memory) (v : Z) :
  write_byte m 0xFF50 v = Some m' -> Z.odd v = true ->
  boot_rom_enabled m' = false.
Proof.
  intros H Ho. unfold write_byte, _write_io_register in H. cbn -[Z.land] in H.
  rewrite land_byte_bit0, Ho in H. simpl in H. injection H as <-. reflexivity.
Qed.

Lemma write_ff50_even (m : Memory) (v : Z) :
  Z.even v = true -> write_byte m 0xFF50 v = Some m.
Proof.
  intros He. unfold write_byte, _write_io_register. cbn -[Z.land].
  rewrite land_byte_bit0, <- Z.negb_even, He. reflexivity.
Qed.

(** C7 (amended): writing a value with bit 0 clear (an even value, such as
    0x02) to 0xFF50 changes nothing, so an enabled boot-ROM overlay stays
    enabled; writing an odd value (bit 0 set) turns the overlay off, and
    after it and any later writes the overlay is still off, the ROM is
    unchanged and every read of 0x0000-0x00FF comes from the ROM. *)
Theorem ff50_odd_disables_boot_rom (m m' : Memory) (v : Z) (ws : list (Z * Z)) :
  (Z.even v = true -> write_byte m 0xFF50 v = Some m)
  /\ (write_all m ((0xFF50, v) :: ws) = Some m' -> Z.odd v = true ->
      boot_rom_enabled m' = false /\ rom m' = rom m
      /\ forall a, a < 0x100 -> read_byte m' a = py_index (rom m) a).
Proof.
  split; [exact (write_ff50_even m v)|].
  intros H Ho. simpl in H. unfold bind in H.
  destruct (write_byte m 0xFF50 v) as [m1|] eqn:E; [|discriminate].
  pose proof (write_ff50_odd _ _ _ E Ho) as Hb1.
  destruct (write_all_rom_boot_off _ _ _ H Hb1) as [Hb Hr].
  rewrite (write_byte_rom _ _ _ _ E) in Hr.
  repeat split; auto.
  intros a Ha. unfold read_byte. rewrite Hb, andb_false_r, andb_false_l.
  rewrite Hr. replace (a <? 0x4000) with true by (symmetry; apply Z.ltb_lt; lia).
  reflexivity.
Qed.

(** ** Memory safety of the bus *)

Lemma py_store_spec (l : pylist) (i v : Z) :
  0 <= i < plen l ->
  py_store l i v = Some (mkList (plen l) (fun k => if k =? i then v else pget l k)).
Proof.
  intros Hi. unfold py_store.
  destruct (i <? 0) eqn:E; [apply Z.ltb_lt in E; lia|].
  replace ((0 <=? i) && (i <? plen l)) with true; [reflexivity|].
  symmetry. apply andb_true_intro. split; [apply Z.leb_le | apply Z.ltb_lt]; lia.
Qed.

Lemma py_index_spec (l : pylist) (i : Z) :
  0 <= i < plen l -> py_index l i = Some (pget l i).
Proof.
  intros Hi. unfold py_index.
  replace ((0 <=? i) && (i <? plen l)) with true; [reflexivity|].
  symmetry. apply andb_true_intro. split; [apply Z.leb_le | apply Z.ltb_lt]; lia.
Qed.

Lemma bytes_ok_store (l : pylist) (i v : Z) :
  bytes_ok l -> 0 <= v <= 255 ->
  bytes_ok (mkList (plen l) (fun k => if k =? i then v else pget l k)).
Proof.
  intros Hl Hv k Hk. simpl in *. destruct (k =? i); auto.
Qed.

Lemma bytes_ok_zeros (n : Z) : bytes_ok (py_zeros n).
Proof. intros k _. simpl. lia. Qed.

Lemma land_ff_range (v : Z) : 0 <= Z.land v 0xFF <= 255.
Proof. rewrite land_255_mod. pose proof (Z.mod_pos_bound v 256). lia. Qed.

Lemma land_small_nonneg (v k : Z) : 0 <= k -> 0 <= Z.land v k.
Proof. intros Hk. apply Z.land_nonneg. right. exact Hk. Qed.

Lemma index_byte (l : pylist) (i : Z) :
  bytes_ok l -> 0 <= i < plen l ->
  exists v, py_index l i = Some v /\ 0 <= v <= 255.
Proof. intros Hl Hi. rewrite py_index_spec by exact Hi. eauto. Qed.

Ltac to_prop E :=
  try rewrite Z.gtb_ltb in E; try rewrite Z.geb_leb in E;
  first [ apply Z.leb_le in E | apply Z.leb_gt in E | apply Z.ltb_lt in E | apply Z.ltb_ge in E
        | apply Z.eqb_eq in E | apply Z.eqb_neq in E | idtac ].

Ltac wf_store :=
  match goal with
  | W : mem_wf ?m |- mem_wf _ =>
      destruct W; constructor; simpl; auto;
      try apply bytes_ok_store; auto; try apply land_ff_range; lia
  end.

Lemma write_byte_wf (m : Memory) (a v : Z) :
  mem_wf m -> exists m', write_byte m a v = Some m' /\ mem_wf m'.
Proof.
  intros W. pose proof W as W'. destruct W'.
  pose proof (land_ff_range v) as Hv.
  unfold write_byte, _write_cart_ram, _write_io_register.
  repeat (cbv beta iota zeta; match goal with
  | |- exists _, (if ?c then _ else _) = _ /\ _ =>
      let E := fresh "E" in destruct c eqn:E; to_prop E
  | |- exists _, bind (py_store ?l ?i ?x) _ = _ /\ _ =>
      rewrite (py_store_spec l i x) by lia; unfold bind
  end); eexists; (split; [reflexivity|]).
  all: try (unfold _handle_mode_select; exact W).
  all: try wf_store.
  - unfold _handle_ram_enable. cbv zeta.
    destruct (mbc_in _ _); [|exact W].
    destruct (_ && _); [|wf_store].
    destruct W; constructor; simpl; auto; try apply bytes_ok_zeros; lia.
  - unfold _handle_rom_bank_change. cbv zeta.
    destruct (mbc_in _ _); [|exact W].
    pose proof (land_small_nonneg (Z.land v 255) 0x1F ltac:(lia)).
    destruct (Z.land (Z.land v 255) 0x1F =? 0) eqn:Eb0; [wf_store|].
    apply Z.eqb_neq in Eb0. wf_store.
  - pose proof (land_small_nonneg (Z.land v 255) 3 ltac:(lia)).
    unfold _handle_ram_bank_change.
    destruct (mbc_in _ [MBC1]); [wf_store|].
    destruct (mbc_in _ [MBC3]); [wf_store|exact W].
Qed.

Lemma write_all_wf (m : Memory) (ws : list (Z * Z)) :
  mem_wf m -> exists m', write_all m ws = Some m' /\ mem_wf m'.
Proof.
  revert m. induction ws as [|[a v] ws IH]; intros m W; simpl.
  - eauto.
  - destruct (write_byte_wf m a v W) as [m1 [E1 W1]]. rewrite E1. simpl.
    apply IH, W1.
Qed.

Lemma read_byte_wf (m : Memory) (a : Z) :
  mem_wf m -> 0 <= a <= 0xFFFF ->
  exists v, read_byte m a = Some v /\ 0 <= v <= 255.
Proof.
  intros W Ha. pose proof W as W'. destruct W'.
  unfold read_byte.
  destruct ((a <? 0x100) && boot_rom_enabled m && boot_rom_truthy (boot_rom m)) eqn:Eb.
  { pose proof (wf_boot m W) as Hboot.
    destruct (boot_rom m) as [b|]; [|simpl in Eb; now rewrite andb_false_r in Eb].
    destruct Hboot as [Hb1 Hb2].
    apply andb_true_iff in Eb as [Eb _]. apply andb_true_iff in Eb as [Ea _].
    apply Z.ltb_lt in Ea.
    apply index_byte; auto; lia. }
  unfold _read_rom_bank, _read_cart_ram.
  repeat (cbv zeta; match goal with
  | |- exists _, (if ?c then _ else _) = _ /\ _ =>
      let E := fresh "E" in destruct c eqn:E; to_prop E
  end); try (eexists; split; [reflexivity | lia]);
  apply index_byte; auto; lia.
Qed.

(** C10: from a well-formed memory (as [Memory.__init__] builds it), any
    sequence of [write_byte] calls, at any addresses and with any integer
    values, raises nothing, and afterwards [read_byte] at any address in
    0x0000-0xFFFF raises nothing and returns a value in 0..255. *)
Theorem read_after_writes_is_byte (m : Memory) (ws : list (Z * Z)) (a : Z) :
  mem_wf m -> 0 <= a <= 0xFFFF ->
  exists m' v, write_all m ws = Some m' /\ read_byte m' a = Some v /\ 0 <= v <= 255.
Proof.
  intros W Ha. destruct (write_all_wf m ws W) as [m' [E W']].
  destruct (read_byte_wf m' a W' Ha) as [v [Hr Hv]]. eauto.
Qed.

Lemma init_memory_wf : mem_wf init_memory.
Proof.
  constructor; simpl; try apply bytes_ok_zeros; try lia; auto.
  intros i Hi. simpl. unfold init_io_value.
  repeat match goal with |- context [if ?c then _ else _] => destruct c end; lia.
Qed.

Lemma read_after_writes_is_byte_witness :
  mem_wf init_memory /\ 0 <= 0xFF40 <= 0xFFFF /\
  exists m' v, write_all init_memory [(0xFF40, 0x1234); (0x2000, -7)] = Some m'
    /\ read_byte m' 0xFF40 = Some v /\ 0 <= v <= 255.
Proof.
  split; [exact init_memory_wf|]. split; [lia|].
  apply read_after_writes_is_byte; [exact init_memory_wf | lia].
Defined.

Lemma py_store_index (l l' : pylist) (i v : Z) :
  py_store l i v = Some l' -> 0 <= i -> py_index l' i = Some v.
Proof.
  intros H Hi. unfold py_store in H.
  destruct (i <? 0) eqn:E; [apply Z.ltb_lt in E; lia|].
  destruct ((0 <=? i) && (i <? plen l)) eqn:E2; [|discriminate].
  injection H as <-. unfold py_index. simpl. rewrite E2, Z.eqb_refl. reflexivity.
Qed.

(** ** Interrupt dispatch *)

(** C1 (code bug): with IME set, [handle_interrupts] raises IndexError on
    every memory whose I/O list has its 128 entries: IE is read at
    [io[0xFF]]. No interrupt is ever dispatched. *)
Theorem handle_interrupts_raises_when_ime (c : CPU) (m : Memory) :
  plen (io m) = 128 -> ime c = true -> handle_interrupts c m = None.
Proof.
  intros Hl Hi. unfold handle_interrupts, get_enabled_interrupts, py_index.
  rewrite Hi, Hl. reflexivity.
Qed.

Lemma handle_interrupts_raises_when_ime_witness :
  plen (io init_memory) = 128 /\ ime (set_ime cpu0 true) = true
  /\ handle_interrupts (set_ime cpu0 true) init_memory = None.
Proof.
  split; [reflexivity|]. split; [reflexivity|].
  apply handle_interrupts_raises_when_ime; reflexivity.
Defined.

Lemma ff50_odd_disables_boot_rom_witness :
  (Z.even 2 = true /\ write_byte boot_loaded_mem 0xFF50 2 = Some boot_loaded_mem
   /\ boot_rom_enabled boot_loaded_mem = true)
  /\ exists m', write_all boot_loaded_mem [(0xFF50, 0x01); (0xC000, 0x42)] = Some m'
    /\ Z.odd 1 = true /\ boot_rom_enabled m' = false
    /\ rom m' = rom boot_loaded_mem
    /\ forall a, a < 0x100 -> read_byte m' a = py_index (rom boot_loaded_mem) a.
Proof.
  split.
  { split; [reflexivity|]. split.
    - exact (proj1 (ff50_odd_disables_boot_rom boot_loaded_mem boot_loaded_mem 2 []) eq_refl).
    - vm_compute. reflexivity. }
  destruct (write_all boot_loaded_mem [(0xFF50, 0x01); (0xC000, 0x42)]) as [m'|] eqn:E.
  - exists m'. split; [reflexivity|]. split; [reflexivity|].
    exact (proj2 (ff50_odd_disables_boot_rom _ _ _ _) E eq_refl).
  - assert (Hs : is_some (write_all boot_loaded_mem [(0xFF50, 0x01); (0xC000, 0x42)]) = true)
      by (vm_compute; reflexivity).
    rewrite E in Hs. discriminate.
Defined.

(** ** Further properties of the code *)

Lemma byte_pair_join (v : Z) :
  Z.lor (Z.shiftl (Z.land (Z.shiftr v 8) 0xFF) 8) (Z.land v 0xFF) = Z.land v 0xFFFF.
Proof.
  apply Z.bits_inj'. intros n Hn.
  change 0xFF with (Z.ones 8). change 0xFFFF with (Z.ones 16).
  rewrite Z.lor_spec, !Z.land_spec, Z.shiftl_spec by lia.
  rewrite !Z.testbit_ones by lia.
  destruct (Z.lt_ge_cases n 8).
  - rewrite (Z.testbit_neg_r _ (n - 8)) by lia.
    replace ((0 <=? n) && (n <? 8)) with true by (symmetry; apply andb_true_intro; split; [apply Z.leb_le|apply Z.ltb_lt]; lia).
    replace ((0 <=? n) && (n <? 16)) with true by (symmetry; apply andb_true_intro; split; [apply Z.leb_le|apply Z.ltb_lt]; lia).
    reflexivity.
  - rewrite Z.land_spec, Z.shiftr_spec, Z.testbit_ones by lia.
    replace (n - 8 + 8) with n by lia.
    replace (n <? 8) with false by (symmetry; apply Z.ltb_ge; lia).
    rewrite !andb_false_r, orb_false_r.
    replace (0 <=? n - 8) with true by (symmetry; apply Z.leb_le; lia).
    replace (0 <=? n) with true by (symmetry; apply Z.leb_le; lia).
    destruct (Z.lt_ge_cases n 16).
    + replace (n - 8 <? 8) with true by (symmetry; apply Z.ltb_lt; lia).
      replace (n <? 16) with true by (symmetry; apply Z.ltb_lt; lia). reflexivity.
    + replace (n - 8 <? 8) with false by (symmetry; apply Z.ltb_ge; lia).
      replace (n <? 16) with false by (symmetry; apply Z.ltb_ge; lia). reflexivity.
Qed.

(** X1: writing a 16-bit register pair (BC, DE, HL, AF) and reading it back gives the value reduced modulo 0x10000: the high byte and the low byte recombine exactly. *)
Theorem register_pairs_wrap_16bit (r : Registers) (v : Z) :
  get_bc (set_bc r v) = Z.land v 0xFFFF /\ get_de (set_de r v) = Z.land v 0xFFFF
  /\ get_hl (set_hl r v) = Z.land v 0xFFFF /\ get_af (set_af r v) = Z.land v 0xFFFF.
Proof. repeat split; apply byte_pair_join. Qed.

(** Settle the comparisons of literal bounds that [lia] can decide. *)
Ltac decide_cmp :=
  repeat match goal with
  | |- context [?x <? ?y] =>
      (replace (x <? y) with true by (symmetry; apply Z.ltb_lt; lia))
      || (replace (x <? y) with false by (symmetry; apply Z.ltb_ge; lia))
  | |- context [?x =? ?y] =>
      (replace (x =? y) with true by (symmetry; apply Z.eqb_eq; lia))
      || (replace (x =? y) with false by (symmetry; apply Z.eqb_neq; lia))
  | |- context [?x <=? ?y] =>
      (replace (x <=? y) with true by (symmetry; apply Z.leb_le; lia))
      || (replace (x <=? y) with false by (symmetry; apply Z.leb_gt; lia))
  end.

Ltac simp := cbn -[Z.add Z.sub Z.mul Z.ltb Z.leb Z.eqb Z.land Z.lor Z.shiftl
                   Z.shiftr Z.lnot Z.div Z.modulo Z.gtb Z.geb].

Lemma store_read (l : pylist) (i v : Z) :
  0 <= i < plen l ->
  py_index (mkList (plen l) (fun k => if k =? i then v else pget l k)) i = Some v.
Proof. intros H. rewrite py_index_spec by (simp; lia). simpl. now rewrite Z.eqb_refl. Qed.

(** X2: on a well-formed memory, a write of [v] to any address backed by plain RAM (VRAM, WRAM, echo, OAM, writable I/O, HRAM, IE) succeeds and a read of that address returns [v land 0xFF]. *)
Theorem write_then_read_byte (m : Memory) (a v : Z) :
  mem_wf m -> ram_address a ->
  exists m', write_byte m a v = Some m' /\ read_byte m' a = Some (Z.land v 0xFF).
Proof.
  intros W Ha. pose proof W as W'. destruct W'.
  unfold write_byte, read_byte, _write_io_register.
  destruct Ha as [Ha|[Ha|[Ha|Ha]]].
  - decide_cmp. rewrite py_store_spec by lia. eexists. split; [reflexivity|].
    simpl. decide_cmp. apply store_read. lia.
  - destruct (Z.lt_ge_cases a 0xE000); [|destruct (Z.lt_ge_cases a 0xFE00)];
      decide_cmp; rewrite py_store_spec by lia; eexists; (split; [reflexivity|]);
      simpl; decide_cmp; apply store_read; lia.
  - destruct (Z.lt_ge_cases a 0xFFFF).
    + decide_cmp. rewrite py_store_spec by lia. eexists. split; [reflexivity|].
      simpl. decide_cmp. apply store_read. lia.
    + replace a with 0xFFFF by lia. cbn. eexists. split; reflexivity.
  - destruct Ha as (Ha & H4 & H44 & H50). decide_cmp.
    rewrite py_store_spec by lia. eexists. split; [reflexivity|].
    simpl. decide_cmp. apply store_read. lia.
Qed.

(** X3: echo RAM mirrors work RAM in both directions: a byte written at 0xE000+k is read at 0xC000+k, and a byte written at 0xC000+k is read at 0xE000+k, for k < 0x1E00. *)
Theorem echo_ram_mirrors_wram (m : Memory) (k v : Z) :
  mem_wf m -> 0 <= k < 0x1E00 ->
  (exists m', write_byte m (0xE000 + k) v = Some m'
     /\ read_byte m' (0xC000 + k) = Some (Z.land v 0xFF))
  /\ (exists m', write_byte m (0xC000 + k) v = Some m'
     /\ read_byte m' (0xE000 + k) = Some (Z.land v 0xFF)).
Proof.
  intros W Hk. pose proof W as W'. destruct W'.
  unfold write_byte, read_byte. split.
  - decide_cmp. rewrite py_store_spec by lia. eexists. split; [reflexivity|].
    simp. decide_cmp. rewrite py_index_spec by (simp; lia). simp. decide_cmp. reflexivity.
  - decide_cmp. rewrite py_store_spec by lia. eexists. split; [reflexivity|].
    simp. decide_cmp. rewrite py_index_spec by (simp; lia). simp. decide_cmp. reflexivity.
Qed.

(** X4: any write to DIV (0xFF04) resets it: a later read returns 0 whatever value was written. *)
Theorem div_write_resets (m : Memory) (v : Z) :
  mem_wf m ->
  exists m', write_byte m 0xFF04 v = Some m' /\ read_byte m' 0xFF04 = Some 0.
Proof.
  intros W. pose proof W as W'. destruct W'.
  unfold write_byte, read_byte, _write_io_register. decide_cmp.
  rewrite py_store_spec by lia. eexists. split; [reflexivity|].
  simp. decide_cmp. apply store_read. lia.
Qed.

(** X5: writes to 0x6000-0x7FFF, the unusable area, P1 (0xFF00), LY (0xFF44), FF50 with an even value, addresses past 0xFFFF, disabled cartridge RAM, and MBC control addresses of a cartridge without the matching MBC leave the memory unchanged. *)
Theorem dropped_writes (m : Memory) (a v : Z) :
  (0x6000 <= a < 0x8000 \/ 0xFEA0 <= a < 0xFF00 \/ a = 0xFF00 \/ a = 0xFF44
   \/ (a = 0xFF50 /\ Z.even v = true) \/ 0xFFFF < a
   \/ (0xA000 <= a < 0xC000 /\ cart_ram_enabled m = false)
   \/ (0x2000 <= a < 0x6000 /\ mbc_in (mbc_type m) [MBC1; MBC2; MBC3; MBC5] = false)
   \/ (a < 0x2000 /\ mbc_in (mbc_type m) [MBC1; MBC3] = false)) ->
  write_byte m a v = Some m.
Proof.
  intros Ha. unfold write_byte.
  destruct Ha as [Ha|[Ha|[Ha|[Ha|[[Ha Hv]|[Ha|[[Ha Hc]|[[Ha Hb]|[Ha Hb]]]]]]]]];
    try subst a; decide_cmp; try reflexivity.
  - unfold _write_io_register. decide_cmp.
    rewrite land_byte_bit0, <- Z.negb_even, Hv. reflexivity.
  - unfold _write_cart_ram. rewrite Hc. reflexivity.
  - destruct (Z.lt_ge_cases a 0x4000); decide_cmp.
    + unfold _handle_rom_bank_change. rewrite Hb. reflexivity.
    + unfold _handle_ram_bank_change.
      assert (H1 : mbc_in (mbc_type m) [MBC1] = false).
      { destruct (mbc_type m) as [[]|]; simpl in *; congruence. }
      assert (H3 : mbc_in (mbc_type m) [MBC3] = false).
      { destruct (mbc_type m) as [[]|]; simpl in *; congruence. }
      rewrite H1, H3. reflexivity.
  - unfold _handle_ram_enable. rewrite Hb. reflexivity.
Qed.

Lemma wram_write (m : Memory) (a x : Z) :
  plen (wram m) = 8 * 1024 -> 0xC000 <= a < 0xE000 ->
  write_byte m a x = Some (set_wram m (mkList (plen (wram m))
    (fun k => if k =? a - 0xC000 then Z.land x 0xFF else pget (wram m) k))).
Proof.
  intros Hl Ha. unfold write_byte. decide_cmp.
  rewrite py_store_spec by lia. reflexivity.
Qed.

Lemma wram_read (m : Memory) (b : Z) :
  plen (wram m) = 8 * 1024 -> 0xC000 <= b < 0xE000 ->
  read_byte m b = Some (pget (wram m) (b - 0xC000)).
Proof.
  intros Hl Hb. unfold read_byte. decide_cmp. simp.
  apply py_index_spec. lia.
Qed.

Lemma land_ff_idem (x : Z) : Z.land (Z.land x 0xFF) 0xFF = Z.land x 0xFF.
Proof. rewrite <- Z.land_assoc. reflexivity. Qed.

(** X6: on work RAM, [write_word] followed by [read_word] at the same address returns the value reduced to 16 bits (little-endian round trip). *)
Theorem write_word_read_word (m : Memory) (a v : Z) :
  plen (wram m) = 8 * 1024 -> 0xC000 <= a < 0xDFFF ->
  exists m', write_word m a v = Some m' /\ read_word m' a = Some (Z.land v 0xFFFF).
Proof.
  intros Hl Ha. unfold write_word.
  rewrite wram_write by lia. simp.
  rewrite wram_write by (simp; lia). simp.
  eexists. split; [reflexivity|].
  unfold read_word. rewrite !wram_read by (simp; lia). simp. decide_cmp.
  rewrite !land_ff_idem. rewrite byte_pair_join. reflexivity.
Qed.

Lemma cpu_step_op (c : CPU) (m : Memory) (op : Z) (i : Instr) c2 m2 cyc :
  halted c = false -> read_byte m (pc (registers c)) = Some op -> op <> 0xCB ->
  opcodes op = Some i -> i (set_current_opcode c op) m = Some (c2, m2, cyc) ->
  cpu_step c m = Some (upd c2 (fun r => set_cycles (set_pc r (pc r + _get_instruction_length c2))
                                  (cycles r + cyc)), m2, cyc).
Proof.
  intros Hh Hr Hop Hi Hx. unfold cpu_step. rewrite Hh, Hr. simp.
  unfold _execute_instruction. simp.
  replace (op =? 0xCB) with false by (symmetry; apply Z.eqb_neq; exact Hop).
  rewrite Hi, Hx. reflexivity.
Qed.

Lemma land_16_small (x : Z) : 0 <= x < 0x10000 -> Z.land x 0xFFFF = x.
Proof.
  intros H. change 0xFFFF with (Z.ones 16). rewrite Z.land_ones by lia.
  apply Z.mod_small. exact H.
Qed.

(** X7: a [JP nn] step takes 16 cycles and leaves PC at nn + 3, not nn, because [step] adds the instruction length after the jump; SP and memory are unchanged. *)
Theorem jp_nn_lands_past_target (c : CPU) (m : Memory) (nn : Z) :
  halted c = false -> read_byte m (pc (registers c)) = Some 0xC3 ->
  read_word m (pc (registers c) + 1) = Some nn ->
  exists c', cpu_step c m = Some (c', m, 16)
    /\ pc (registers c') = nn + 3 /\ sp (registers c') = sp (registers c).
Proof.
  intros Hh Hr Hw.
  assert (Hx : _jp_nn (set_current_opcode c 0xC3) m
               = Some (upd (set_current_opcode c 0xC3) (fun r => set_pc r nn), m, 16)).
  { unfold _jp_nn. simp. rewrite Hw. reflexivity. }
  rewrite (cpu_step_op c m 0xC3 _jp_nn _ _ _ Hh Hr ltac:(discriminate) eq_refl Hx).
  eexists. split; [reflexivity|]. simp. split; reflexivity.
Qed.

Lemma read_byte_set_wram (m : Memory) (l : pylist) (b : Z) :
  b < 0xC000 -> read_byte (set_wram m l) b = read_byte m b.
Proof.
  intros Hb. unfold read_byte, _read_rom_bank, _read_cart_ram. simp.
  destruct ((b <? 0x100) && boot_rom_enabled m && boot_rom_truthy (boot_rom m)); [reflexivity|].
  destruct (b <? 0x4000); [reflexivity|]. destruct (b <? 0x8000); [reflexivity|].
  destruct (b <? 0xA000); [reflexivity|].
  replace (b <? 0xC000) with true by (symmetry; apply Z.ltb_lt; lia). reflexivity.
Qed.

(** X8: [CALL nn] followed by [RET] at nn+3 restores SP and leaves PC at the call address + 4 (one byte past the return address), after 40 cycles. *)
Theorem call_then_ret_returns_past_call (c : CPU) (m : Memory) (nn : Z) :
  let p := pc (registers c) in
  let s := sp (registers c) in
  halted c = false -> plen (wram m) = 8 * 1024 ->
  0 <= p < 0xC000 -> 0xC002 <= s <= 0xE000 ->
  read_byte m p = Some 0xCD -> read_word m (p + 1) = Some nn ->
  nn + 3 < 0xC000 -> read_byte m (nn + 3) = Some 0xC9 ->
  exists c' m', cpu_steps 2 c m = Some (c', m')
    /\ pc (registers c') = p + 4 /\ sp (registers c') = s
    /\ cycles (registers c') = cycles (registers c) + 40.
Proof.
  intros p s Hh Hl Hp Hs Hr Hw Hn Hret.
  unfold cpu_steps. unfold cpu_step at 1. rewrite Hh. fold p. rewrite Hr. simp.
  unfold _execute_instruction. simp. decide_cmp. simp.
  replace (opcodes 0xCD) with (Some _call_nn) by reflexivity. simp.
  unfold _call_nn. simp. fold p. rewrite Hw. simp. fold s.
  unfold write_word. rewrite wram_write by lia. simp.
  rewrite wram_write by (simp; lia). simp.
  unfold cpu_step. simp. rewrite Hh.
  unfold _get_instruction_length. simp. decide_cmp. simp.
  rewrite !read_byte_set_wram by lia. rewrite Hret. simp.
  unfold _execute_instruction. simp. decide_cmp. simp.
  replace (opcodes 0xC9) with (Some _ret) by reflexivity. simp.
  unfold _ret. simp. unfold read_word. rewrite !wram_read by (simp; lia). simp.
  decide_cmp. rewrite !land_ff_idem, byte_pair_join, land_16_small by lia.
  simp. do 2 eexists. split; [reflexivity|]. simp.
  unfold _get_instruction_length. simp. decide_cmp. simp. repeat split; lia.
Qed.

Lemma land_pow2_eqb0 (x k : Z) :
  0 <= k -> (Z.land x (2 ^ k) =? 0) = negb (Z.testbit x k).
Proof.
  intros Hk. destruct (Z.testbit x k) eqn:E; simpl.
  - apply Z.eqb_neq. intro H.
    assert (H0 : Z.testbit (Z.land x (2 ^ k)) k = false) by (rewrite H; apply Z.testbit_0_l).
    rewrite Z.land_spec, E, Z.pow2_bits_true in H0 by lia. discriminate.
  - apply Z.eqb_eq. apply Z.bits_inj'. intros n Hn.
    rewrite Z.land_spec, Z.testbit_0_l, Z.pow2_bits_eqb by lia.
    destruct (Z.eqb_spec k n); [subst; rewrite E; reflexivity | apply andb_false_r].
Qed.

Lemma testbit_set_flag (r : Registers) (k j : Z) (v : bool) :
  0 <= k -> 0 <= j ->
  Z.testbit (rf (set_flag (2 ^ k) r v)) j
  = if k =? j then v else Z.testbit (rf r) j.
Proof.
  intros Hk Hj. unfold set_flag, set_f. simpl. destruct v.
  - rewrite Z.lor_spec, Z.pow2_bits_eqb by lia.
    destruct (k =? j); [apply orb_true_r | apply orb_false_r].
  - rewrite Z.land_spec, Z.lnot_spec, Z.pow2_bits_eqb by lia.
    destruct (k =? j); [apply andb_false_r | apply andb_true_r].
Qed.

Lemma flag_z_bit r : flag_z r = Z.testbit (rf r) 7.
Proof. unfold flag_z. change 0x80 with (2 ^ 7). rewrite land_pow2_eqb0 by lia. apply negb_involutive. Qed.
Lemma flag_n_bit r : flag_n r = Z.testbit (rf r) 6.
Proof. unfold flag_n. change 0x40 with (2 ^ 6). rewrite land_pow2_eqb0 by lia. apply negb_involutive. Qed.
Lemma flag_h_bit r : flag_h r = Z.testbit (rf r) 5.
Proof. unfold flag_h. change 0x20 with (2 ^ 5). rewrite land_pow2_eqb0 by lia. apply negb_involutive. Qed.
Lemma flag_c_bit r : flag_c r = Z.testbit (rf r) 4.
Proof. unfold flag_c. change 0x10 with (2 ^ 4). rewrite land_pow2_eqb0 by lia. apply negb_involutive. Qed.

Lemma set_flag_low_nibble (r : Registers) (k : Z) (v : bool) :
  4 <= k -> Z.land (rf (set_flag (2 ^ k) r v)) 0x0F = Z.land (rf r) 0x0F.
Proof.
  intros Hk. apply Z.bits_inj'. intros j Hj. rewrite !Z.land_spec.
  rewrite testbit_set_flag by lia.
  destruct (Z.lt_ge_cases j 4).
  - replace (k =? j) with false by (symmetry; apply Z.eqb_neq; lia). reflexivity.
  - change 0x0F with (Z.ones 4). rewrite Z.testbit_ones by lia.
    replace (j <? 4) with false by (symmetry; apply Z.ltb_ge; lia).
    rewrite !andb_false_r. reflexivity.
Qed.

Lemma bit_test_regs (v bit : Z) (c : CPU) :
  0 <= bit ->
  let r := registers c in
  let r' := registers (bit_test v bit c) in
  flag_z r' = negb (Z.testbit v bit) /\ flag_n r' = false /\ flag_h r' = true
  /\ flag_c r' = flag_c r /\ Z.land (rf r') 0x0F = Z.land (rf r) 0x0F
  /\ ra r' = ra r /\ rb r' = rb r /\ rc r' = rc r /\ rd r' = rd r
  /\ re r' = re r /\ rh r' = rh r /\ rl r' = rl r /\ sp r' = sp r /\ pc r' = pc r
  /\ cycles r' = cycles r.
Proof.
  intros Hb r r'. unfold r', bit_test, upd, set_registers. cbn [registers]. fold r.
  unfold set_flag_h, set_flag_n, set_flag_z. rewrite Z.shiftl_1_l.
  rewrite flag_z_bit, flag_n_bit, flag_h_bit, !flag_c_bit.
  change 0x20 with (2 ^ 5). change 0x40 with (2 ^ 6). change 0x80 with (2 ^ 7).
  rewrite !set_flag_low_nibble by lia.
  rewrite !testbit_set_flag by lia. cbn - [Z.testbit Z.land Z.pow].
  rewrite land_pow2_eqb0 by lia.
  repeat split; reflexivity.
Qed.

(** X9: a CB-prefixed [BIT b, r] on a register sets Z to the complement of bit b, clears N, sets H, keeps C, the low flag nibble and all registers, and advances PC by 3. *)
Theorem cb_bit_register_step (c : CPU) (m : Memory) (k b : Z) :
  let r := registers c in
  let v := nth (Z.to_nat k) [rb r; rc r; rd r; re r; rh r; rl r; 0; ra r] 0 in
  halted c = false -> 0 <= k < 8 -> k <> 6 -> 0 <= b < 8 ->
  read_byte m (pc r) = Some 0xCB -> read_byte m (pc r + 1) = Some (0x40 + 8 * k + b) ->
  exists c', cpu_step c m = Some (c', m, 8)
    /\ flag_z (registers c') = negb (Z.testbit v b)
    /\ flag_n (registers c') = false /\ flag_h (registers c') = true
    /\ flag_c (registers c') = flag_c r
    /\ Z.land (rf (registers c')) 0x0F = Z.land (rf r) 0x0F
    /\ ra (registers c') = ra r /\ rb (registers c') = rb r /\ rc (registers c') = rc r
    /\ rd (registers c') = rd r /\ re (registers c') = re r /\ rh (registers c') = rh r
    /\ rl (registers c') = rl r /\ sp (registers c') = sp r
    /\ pc (registers c') = pc r + 3.
Proof.
  intros r v Hh Hk Hk6 Hb Hr Hr1.
  unfold cpu_step. rewrite Hh. fold r. rewrite Hr. simp.
  unfold _execute_instruction. simp. decide_cmp. simp. fold r. rewrite Hr1. simp.
  unfold _execute_cb_instruction, cb_opcodes.
  assert (Hd : (0x40 + 8 * k + b - 0x40) / 8 = k).
  { replace (0x40 + 8 * k + b - 0x40) with (b + k * 8) by lia.
    rewrite Z.div_add by lia. rewrite Z.div_small by lia. lia. }
  assert (Hm : (0x40 + 8 * k + b - 0x40) mod 8 = b).
  { replace (0x40 + 8 * k + b - 0x40) with (b + k * 8) by lia.
    rewrite Z.mod_add by lia. apply Z.mod_small. lia. }
  decide_cmp. simp. rewrite Hd, Hm.
  assert (Hcase : k = 0 \/ k = 1 \/ k = 2 \/ k = 3 \/ k = 4 \/ k = 5 \/ k = 7) by lia.
  unfold v; clear v.
  destruct Hcase as [->|[->|[->|[->|[->|[->| ->]]]]]];
  (match goal with |- context [Z.to_nat ?z] =>
     let n := eval vm_compute in (Z.to_nat z) in change (Z.to_nat z) with n end);
  cbn [nth]; simp;
  unfold bit_reg; simp; eexists; (split; [reflexivity|]);
  match goal with |- context [bit_test ?x ?bb ?cc] =>
    pose proof (bit_test_regs x bb cc ltac:(lia)) as HB; cbv zeta in HB;
    remember (bit_test x bb cc) as c2 eqn:Ec2 end;
  assert (Hl : _get_instruction_length c2 = 2)
    by (unfold _get_instruction_length; rewrite Ec2; reflexivity);
  rewrite Hl; unfold r in *;
  cbn [upd set_registers set_current_opcode set_pc set_cycles registers ra rb rc rd re rh rl rf sp pc cycles] in HB |- *;
  rewrite ?flag_z_bit, ?flag_n_bit, ?flag_h_bit, ?flag_c_bit in *;
  cbn [upd set_registers set_current_opcode set_pc set_cycles registers ra rb rc rd re rh rl rf sp pc cycles] in *;
  (destruct HB as (H1 & H2 & H3 & H4 & H5 & H6 & H7 & H8 & H9 & H10 & H11 & H12 & H13 & H14 & H15);
   repeat split; try congruence; lia).
Qed.

Lemma write_word_all (m m' : Memory) (a v : Z) :
  write_word m a v = Some m' ->
  write_all m [(a, Z.land v 0xFF); (a + 1, Z.land (Z.shiftr v 8) 0xFF)] = Some m'.
Proof.
  unfold write_word. simpl. unfold bind.
  destruct (write_byte m a (Z.land v 0xFF)); [|discriminate].
  destruct write_byte; auto.
Qed.

Ltac instr_ok_tac :=
  let c := fresh "c" in let m := fresh "m" in let H := fresh "H" in
  intros c m ? ? ? H;
  unfold _nop, _ld_bc_nn, _ld_de_nn, _ld_hl_nn, _ld_sp_nn, ld_rr_nn, _ld_hl_n,
    _ld_a_hl, _ld_a_n, _ld_b_n, _ld_c_n, _ld_d_n, _ld_e_n, _ld_h_n, _ld_l_n,
    ld_r_n, _inc_bc, _inc_de, _inc_hl, _inc_sp, _dec_bc, _dec_de, _dec_hl,
    _dec_sp, add_rr, _jp_nn, _jp_nz_nn, _jp_z_nn, _jp_nc_nn, _jp_c_nn, jp_cond,
    _call_nn, _ret, _push_bc, _push_de, _push_hl, _push_af, push_rr, _pop_bc,
    _pop_de, _pop_hl, _pop_af, pop_rr, _ei, _di, bit_reg, _bit_hl, bind in H;
  cbv zeta in H; split_opt H; subst;
  (split; [reflexivity|split; [reflexivity|]]);
  first [ exists []; reflexivity
        | match goal with E : write_byte ?m ?a ?v = Some _ |- _ =>
            exists [(a, v)]; simpl; rewrite E; reflexivity end
        | match goal with E : write_word _ _ _ = Some _ |- _ =>
            eexists; exact (write_word_all _ _ _ _ E) end ].

Lemma opcodes_ok (op : Z) (i : Instr) : opcodes op = Some i -> instr_ok i.
Proof.
  unfold opcodes.
  repeat (destruct (op =? _); [intros H; injection H as <-; instr_ok_tac|]).
  discriminate.
Qed.

Lemma cb_opcodes_ok (op : Z) (i : Instr) : cb_opcodes op = Some i -> instr_ok i.
Proof.
  unfold cb_opcodes. cbv zeta.
  destruct (_ && _); [|discriminate]. intros H; injection H as <-.
  repeat (destruct (_ =? _); [instr_ok_tac|]). instr_ok_tac.
Qed.

Lemma cpu_step_ok : instr_ok cpu_step.
Proof.
  intros c m c' m' cyc H. unfold cpu_step in H.
  destruct (halted c) eqn:Eh.
  { injection H as <- <- _. split; [exact Eh|split; [reflexivity|]]. exists []. reflexivity. }
  rewrite <- Eh.
  unfold bind in H. destruct (read_byte m (pc (registers c))) as [op|]; [|discriminate].
  destruct (_execute_instruction (set_current_opcode c op) m) as [[[c2 m2] cyc2]|] eqn:Ex;
    [|discriminate].
  injection H as <- <- _. cbn [halted stopped upd set_registers].
  enough (halted c2 = halted (set_current_opcode c op) /\
          stopped c2 = stopped (set_current_opcode c op) /\
          exists ws, write_all m ws = Some m2) by (simpl in *; tauto).
  unfold _execute_instruction in Ex. cbv zeta in Ex.
  destruct (current_opcode _ =? 0xCB).
  - unfold bind in Ex. destruct read_byte as [cb|]; [|discriminate].
    unfold _execute_cb_instruction in Ex.
    destruct (cb_opcodes cb) as [i|] eqn:Ei.
    + apply (cb_opcodes_ok _ _ Ei) in Ex. simpl in *. tauto.
    + injection Ex as <- <- _. simpl. split; [reflexivity|split; [reflexivity|]].
      exists []. reflexivity.
  - destruct (opcodes _) as [i|] eqn:Ei.
    + exact (opcodes_ok _ _ Ei _ _ _ _ _ Ex).
    + injection Ex as <- <- _. split; [reflexivity|split; [reflexivity|]].
      exists []. reflexivity.
Qed.

Lemma write_all_wf_keep (m m' : Memory) (ws : list (Z * Z)) :
  write_all m ws = Some m' -> mem_wf m -> mem_wf m'.
Proof.
  intros H W. destruct (write_all_wf m ws W) as [m2 [E W2]].
  rewrite H in E. injection E as ->. exact W2.
Qed.

Lemma write_all_rom (m m' : Memory) (ws : list (Z * Z)) :
  write_all m ws = Some m' -> rom m' = rom m.
Proof.
  revert m. induction ws as [|[a v] ws IH]; intros m H; simpl in H.
  - injection H as <-. reflexivity.
  - unfold bind in H. destruct (write_byte m a v) as [m1|] eqn:E; [|discriminate].
    rewrite (IH m1 H). exact (write_byte_rom _ _ _ _ E).
Qed.

Lemma py_store_other (l l' : pylist) (i v j : Z) :
  py_store l i v = Some l' -> 0 <= i -> j <> i ->
  plen l' = plen l /\ pget l' j = pget l j.
Proof.
  intros H Hi Hj. unfold py_store in H.
  replace (i <? 0) with false in H by (symmetry; apply Z.ltb_ge; lia).
  destruct (_ && _); [|discriminate]. injection H as <-. simpl.
  split; [reflexivity|]. replace (j =? i) with false by (symmetry; apply Z.eqb_neq; lia).
  reflexivity.
Qed.

(** P1 ([io[0]]) is kept by every bus write. *)
Lemma write_byte_p1 (m m' : Memory) (a v : Z) :
  write_byte m a v = Some m' ->
  plen (io m') = plen (io m) /\ pget (io m') 0 = pget (io m) 0.
Proof.
  intro H. write_byte_cases H; try (split; reflexivity).
  all: match goal with E : py_store (io _) _ _ = Some _ |- _ =>
         apply (py_store_other _ _ _ _ 0 E); lia end.
Qed.

Lemma write_all_p1 (m m' : Memory) (ws : list (Z * Z)) :
  write_all m ws = Some m' ->
  plen (io m') = plen (io m) /\ pget (io m') 0 = pget (io m) 0.
Proof.
  revert m. induction ws as [|[a v] ws IH]; intros m H; simpl in H.
  - injection H as <-. auto.
  - unfold bind in H. destruct (write_byte m a v) as [m1|] eqn:E; [|discriminate].
    destruct (IH m1 H). destruct (write_byte_p1 _ _ _ _ E). split; congruence.
Qed.

Ltac crush_opt :=
  repeat (match goal with
  | H : Some _ = Some _ |- _ => injection H; clear H; intros; subst
  | H : None = Some _ |- _ => discriminate H
  | H : (match (if ?c then _ else _) with Some _ => _ | None => _ end) = Some _ |- _ =>
      let E := fresh "E" in destruct c eqn:E; try (vm_compute in E; discriminate E)
  | H : (match ?o with Some _ => _ | None => _ end) = Some _ |- _ =>
      let E := fresh "E" in destruct o eqn:E
  | H : (if ?c then _ else _) = Some _ |- _ =>
      let E := fresh "E" in destruct c eqn:E; try (vm_compute in E; discriminate E)
  | H : (match ?p with (_, _) => _ end) = Some _ |- _ => destruct p
  | p : (_ * _)%type |- _ => destruct p
  end; cbv beta iota zeta in *).

Ltac p1_chain :=
  repeat match goal with
  | E : py_store ?X ?i ?v = Some ?L |- _ =>
      let Hp := fresh "Hp" in
      assert (Hp : plen L = plen X /\ pget L 0 = pget X 0)
        by (apply (py_store_other X L i v 0 E); lia);
      clear E
  end;
  cbn [io set_io fst snd] in *; split; intuition congruence.

Lemma request_interrupt_p1 (m m' : Memory) (log log' : list irq) (t : irq) :
  request_interrupt m log t = Some (m', log') ->
  plen (io m') = plen (io m) /\ pget (io m') 0 = pget (io m) 0.
Proof. intros H. unfold request_interrupt, bind in H. crush_opt; p1_chain. Qed.

Lemma timer_step_p1 (t t' : Timer) (m m' : Memory) (log log' : list irq) (cyc : Z) :
  timer_step t m log cyc = Some (t', m', log') ->
  plen (io m') = plen (io m) /\ pget (io m') 0 = pget (io m) 0.
Proof.
  intros H. unfold timer_step, _increment_tima, _is_timer_enabled, bind in H.
  crush_opt;
  try match goal with E : request_interrupt _ _ _ = Some (_, _) |- _ =>
        apply request_interrupt_p1 in E end;
  p1_chain.
Qed.

Lemma ppu_step_mem (p p' : PPU) (m m' : Memory) (cyc : Z) :
  ppu_step p m cyc = Some (p', m') -> m' = m.
Proof.
  intros H. unfold ppu_step, _request_vblank_interrupt, get_io_register,
    set_io_register, bind in H.
  cbv zeta in H. crush_opt; reflexivity.
Qed.

Lemma handle_interrupts_p1 (c c' : CPU) (m m' : Memory) (d : bool) :
  handle_interrupts c m = Some (c', m', d) ->
  plen (io m') = plen (io m) /\ pget (io m') 0 = pget (io m) 0.
Proof.
  intros H. unfold handle_interrupts, _execute_interrupt, get_enabled_interrupts,
    get_interrupt_flags, interrupts, bind in H.
  crush_opt;
  repeat match goal with E : write_word _ _ _ = Some _ |- _ =>
    apply write_word_all, write_all_p1 in E end;
  p1_chain.
Qed.

Lemma py_index_0 (l : pylist) (v : Z) : py_index l 0 = Some v -> v = pget l 0.
Proof.
  unfold py_index. destruct (_ && _); [congruence|].
  rewrite andb_false_r. discriminate.
Qed.

Lemma land_30_bits (x : Z) :
  Z.land x 0x30 = 0x30 -> Z.land x 0x10 = 0x10 /\ Z.land x 0x20 = 0x20.
Proof.
  intros H. change 0x10 with (Z.land 0x30 0x10) at 1.
  change 0x20 with (Z.land 0x30 0x20) at 1.
  rewrite !Z.land_assoc, H. split; reflexivity.
Qed.

Lemma handle_input_p1 (j : Joypad) (m m' : Memory) :
  _handle_input j m = Some m' -> Z.land (pget (io m) 0) 0x30 = 0x30 -> m' = m.
Proof.
  intros H Hp. unfold _handle_input, get_io_register, bind in H.
  cbn -[py_index Z.land] in H.
  destruct (py_index (io m) 0) as [p1|] eqn:E; [|discriminate].
  apply py_index_0 in E. subst p1. destruct (land_30_bits _ Hp) as [F1 F2].
  rewrite F1, F2 in H.
  simpl in H. injection H as <-. reflexivity.
Qed.

Lemma run_frame_iter_p1 (g g' : Gameboy) (fc fc' : Z) :
  run_frame_iter g fc = Some (g', fc') ->
  Z.land (pget (io (mem g)) 0) 0x30 = 0x30 ->
  pget (io (mem g')) 0 = pget (io (mem g)) 0.
Proof.
  intros H Hp. unfold run_frame_iter, bind in H.
  destruct (cpu_step (cpu g) (mem g)) as [[[c1 m1] cyc]|] eqn:E1; [|discriminate].
  destruct (cpu_step_ok _ _ _ _ _ E1) as (_ & _ & ws & Ews).
  destruct (write_all_p1 _ _ _ Ews) as [_ P1].
  destruct (timer_step _ _ _ _) as [[[t1 m2] log2]|] eqn:E2; [|discriminate].
  destruct (timer_step_p1 _ _ _ _ _ _ _ E2) as [_ P2].
  destruct (ppu_step _ _ _) as [[p1 m3]|] eqn:E3; [|discriminate].
  apply ppu_step_mem in E3. subst m3.
  destruct (apu_step _ _ _) as [a1|]; [|discriminate].
  destruct (handle_interrupts c1 m2) as [[[c2 m4] d]|] eqn:E4; [|discriminate].
  destruct (handle_interrupts_p1 _ _ _ _ _ E4) as [_ P4].
  destruct (_handle_input _ m4) as [m5|] eqn:E5; [|discriminate].
  apply handle_input_p1 in E5; [|congruence]. subst m5.
  destruct (_ >=? _).
  - destruct (request_interrupt m4 log2 VBLANK) as [[m6 log6]|] eqn:E6; [|discriminate].
    destruct (request_interrupt_p1 _ _ _ _ _ E6) as [_ P6].
    injection H as <- _. simpl. congruence.
  - injection H as <- _. simpl. congruence.
Qed.

(** X12: when no joypad group is selected in P1, any number of passes of the [run_frame] loop leave P1 (0xFF00) exactly as it was: the joypad state never reaches P1 while the loop runs. *)
Theorem frame_passes_keep_p1 (n : nat) (g g' : Gameboy) (fc fc' : Z) :
  frame_passes n g fc = Some (g', fc') ->
  Z.land (pget (io (mem g)) 0) 0x30 = 0x30 ->
  pget (io (mem g')) 0 = pget (io (mem g)) 0.
Proof.
  revert g fc. induction n as [|k IH]; intros g fc H Hp; simpl in H.
  - injection H as <- _. reflexivity.
  - unfold bind in H. destruct (run_frame_iter g fc) as [[g1 fc1]|] eqn:E; [|discriminate].
    pose proof (run_frame_iter_p1 _ _ _ _ E Hp) as P.
    simpl in H. rewrite (IH _ _ H); [exact P|]. congruence.
Qed.

(** X14: requesting an interrupt ORs its bit into IF (0xFF0F) and appends it to the log; clearing it then ANDs the bit out; no other I/O register changes. *)
Theorem request_then_clear_interrupt (m : Memory) (log : list irq) (t : irq) :
  plen (io m) = 128 ->
  let bit := Z.shiftl 1 ((irq_addr t - 0x40) / 8) in
  let v := pget (io m) 0x0F in
  exists m1 m2,
    request_interrupt m log t = Some (m1, log ++ [t])
    /\ pget (io m1) 0x0F = Z.lor v bit
    /\ clear_interrupt m1 t = Some m2
    /\ pget (io m2) 0x0F = Z.land v (Z.lnot bit)
    /\ plen (io m2) = 128
    /\ (forall k, k <> 0x0F -> pget (io m2) k = pget (io m) k).
Proof.
  intros Hl bit v. unfold request_interrupt, clear_interrupt.
  rewrite py_index_spec by lia. simp. rewrite py_store_spec by lia. simp.
  do 2 eexists. split; [reflexivity|]. simp. decide_cmp. split; [reflexivity|].
  rewrite py_index_spec by (simp; lia). simp. decide_cmp.
  rewrite py_store_spec by (simp; lia). simp.
  split; [reflexivity|]. decide_cmp. split.
  - fold bit v. rewrite Z.land_lor_distr_l, Z.land_lnot_diag, Z.lor_0_r. reflexivity.
  - split; [exact Hl|]. intros k Hk. simp.
    replace (k =? 15) with false by (symmetry; apply Z.eqb_neq; exact Hk). reflexivity.
Qed.

(** X15: inside 0xFF00-0xFF7F, [set_io_register] then [get_io_register] returns the value reduced to a byte; outside that range reads give 0 and writes do nothing. *)
Theorem io_register_round_trip (m : Memory) (a v : Z) :
  plen (io m) = 128 ->
  (0xFF00 <= a <= 0xFF7F ->
   exists m', set_io_register m a v = Some m'
     /\ get_io_register m' a = Some (Z.land v 0xFF) /\ plen (io m') = 128)
  /\ (~ (0xFF00 <= a <= 0xFF7F) ->
      get_io_register m a = Some 0 /\ set_io_register m a v = Some m).
Proof.
  intros Hl. split.
  - intros Ha. unfold set_io_register, get_io_register. decide_cmp. simp.
    rewrite py_store_spec by lia. simp. eexists. split; [reflexivity|].
    rewrite py_index_spec by (simp; lia). simp. decide_cmp. auto.
  - intros Ha. unfold set_io_register, get_io_register.
    replace ((0xFF00 <=? a) && (a <=? 0xFF7F)) with false; [auto|].
    symmetry. apply andb_false_iff.
    destruct (Z.le_gt_cases 0xFF00 a); [right; apply Z.leb_gt | left; apply Z.leb_gt]; lia.
Qed.

(** X16: [load_boot_rom] rejects images not 256 bytes long; otherwise the ROM is kept and reads of 0x0000-0x00FF return the boot image. *)
Theorem load_boot_rom_overlay (m : Memory) (bd : pybytes) :
  (blen bd <> 256 -> load_boot_rom m bd = None)
  /\ (blen bd = 256 ->
      exists m', load_boot_rom m bd = Some m'
        /\ rom m' = rom m
        /\ forall a, 0 <= a < 0x100 -> read_byte m' a = Some (bget bd a)).
Proof.
  split.
  - intros H. unfold load_boot_rom. apply Z.eqb_neq in H. rewrite H. reflexivity.
  - intros H. unfold load_boot_rom. rewrite H. simpl. eexists. split; [reflexivity|].
    split; [reflexivity|]. intros a Ha. unfold read_byte. simp. decide_cmp. simp.
    rewrite py_index_spec by (simp; lia). reflexivity.
Qed.

Lemma to_nat_nonpos (x : Z) : x <= 0 -> Z.to_nat x = 0%nat.
Proof. destruct x; simpl; auto; lia. Qed.

Lemma rom_banks_ge_2 (rom_data : list Z) : 2 <= rom_banks rom_data.
Proof.
  unfold rom_banks, rom_sizes.
  destruct (_ <? _); [lia|].
  repeat (destruct (_ =? _); [lia|]). lia.
Qed.

(** X17: for a bank number inside the ROM, [get_rom_bank] returns the 16 KiB slice starting at bank * 0x4000. *)
Theorem get_rom_bank_slice (rom_data : list Z) (n : Z) :
  0 <= n < rom_banks rom_data ->
  get_rom_bank rom_data n = firstn (Z.to_nat 0x4000) (skipn (Z.to_nat (n * 0x4000)) rom_data).
Proof.
  intros Hn. unfold get_rom_bank, py_slice.
  replace (n >=? rom_banks rom_data) with false by (symmetry; rewrite Z.geb_leb; apply Z.leb_gt; lia).
  set (len := Z.of_nat (List.length rom_data)).
  replace (n * 16384 <? 0) with false by (symmetry; apply Z.ltb_ge; lia).
  destruct (n * 16384 + 16384 >? len) eqn:E.
  - apply Z.gtb_lt in E.
    replace (len <? 0) with false by (symmetry; apply Z.ltb_ge; lia).
    rewrite Z.min_id.
    destruct (Z.le_gt_cases len (n * 16384)).
    + rewrite Z.min_r by lia. replace (len - len) with 0 by lia. cbn [Z.to_nat firstn].
      rewrite skipn_all2; [reflexivity|]. unfold len in *. lia.
    + rewrite Z.min_l by lia.
      rewrite firstn_all2 by (rewrite length_skipn; unfold len in *; lia).
      rewrite firstn_all2; [reflexivity|]. rewrite length_skipn. unfold len in *.
      change 0x4000 with 16384 in *. lia.
  - rewrite Z.gtb_ltb in E; apply Z.ltb_ge in E.
    replace (n * 16384 + 16384 <? 0) with false by (symmetry; apply Z.ltb_ge; lia).
    rewrite !Z.min_l by lia. replace (n * 16384 + 16384 - n * 16384) with 16384 by lia.
    reflexivity.
Qed.

(** X18: negative bank numbers are not rejected: bank -1 gives an empty slice, and banks below -1 slice from the end of the ROM as Python negative indices do. *)
Theorem get_rom_bank_negative (rom_data : list Z) (n : Z) :
  let len := Z.of_nat (List.length rom_data) in
  (get_rom_bank rom_data (-1) = [])
  /\ (n <= -2 -> - n * 0x4000 <= len ->
      get_rom_bank rom_data n
      = firstn (Z.to_nat 0x4000) (skipn (Z.to_nat (len + n * 0x4000)) rom_data)).
Proof.
  intros len. pose proof (rom_banks_ge_2 rom_data) as Hb. split.
  - unfold get_rom_bank, py_slice.
    replace (-1 >=? rom_banks rom_data) with false by (symmetry; rewrite Z.geb_leb; apply Z.leb_gt; lia).
    fold len.
    replace (-1 * 16384 + 16384 >? len) with false by (symmetry; rewrite Z.gtb_ltb; apply Z.ltb_ge; lia).
    replace (-1 * 16384 + 16384 <? 0) with false by reflexivity.
    replace (-1 * 16384 <? 0) with true by reflexivity.
    rewrite (to_nat_nonpos (Z.min (-1 * 16384 + 16384) len - Z.max 0 (-1 * 16384 + len)))
      by lia.
    reflexivity.
  - intros Hn Hl. unfold get_rom_bank, py_slice. fold len.
    replace (n >=? rom_banks rom_data) with false by (symmetry; rewrite Z.geb_leb; apply Z.leb_gt; lia).
    replace (n * 16384 + 16384 >? len) with false by (symmetry; rewrite Z.gtb_ltb; apply Z.ltb_ge; lia).
    replace (n * 16384 + 16384 <? 0) with true by (symmetry; apply Z.ltb_lt; lia).
    replace (n * 16384 <? 0) with true by (symmetry; apply Z.ltb_lt; lia).
    rewrite !Z.max_r by lia.
    replace (n * 16384 + 16384 + len - (n * 16384 + len)) with 16384 by lia.
    replace (n * 16384 + len) with (len + n * 16384) by lia. reflexivity.
Qed.

Lemma land_ff_1f (v : Z) : Z.land (Z.land v 0xFF) 0x1F = Z.land v 0x1F.
Proof. rewrite <- Z.land_assoc. reflexivity. Qed.

Lemma land_1f_range (v : Z) : 0 <= Z.land v 0x1F <= 0x1F.
Proof.
  change (Z.land v 0x1F) with (Z.land v (Z.ones 5)). rewrite Z.land_ones by lia.
  pose proof (Z.mod_pos_bound v (2 ^ 5)). change (2 ^ 5) with 32 in *. lia.
Qed.

(** X19: on an MBC cartridge, a write to 0x2000-0x3FFF selects bank [v land 0x1F] (0 read as 1), and a read of 0x4000+k then returns ROM byte (bank - 1) * 0x4000 + k. *)
Theorem mbc_bank_switch_read (m : Memory) (a v k : Z) :
  mem_wf m -> mbc_in (mbc_type m) [MBC1; MBC2; MBC3; MBC5] = true ->
  0x2000 <= a < 0x4000 -> 0 <= k < 0x4000 ->
  let b := if Z.land v 0x1F =? 0 then 1 else Z.land v 0x1F in
  exists m', write_byte m a v = Some m' /\ rom_bank m' = b
    /\ read_byte m' (0x4000 + k) = Some (pget (rom m) ((b - 1) * 0x4000 + k)).
Proof.
  intros W Hm Ha Hk b. pose proof (wf_rom_len m W) as Hr.
  assert (Hb : 1 <= b <= 0x1F).
  { unfold b. pose proof (land_1f_range v). destruct (Z.land v 31 =? 0) eqn:E; to_prop E. all: lia. }
  unfold write_byte. decide_cmp. unfold _handle_rom_bank_change. rewrite Hm.
  rewrite land_ff_1f. fold b. eexists. split; [reflexivity|]. split; [reflexivity|].
  unfold read_byte. simp. decide_cmp. simp. unfold _read_rom_bank. simp.
  replace (mbc_in (mbc_type m) [ROM_ONLY]) with false
    by (destruct (mbc_type m) as [[]|]; simpl in *; congruence).
  replace ((b - 1) * 16384 + (16384 + k - 16384)) with ((b - 1) * 16384 + k) by lia.
  decide_cmp. apply py_index_spec. lia.
Qed.

Lemma boot_off_cond (m : Memory) (a : Z) :
  boot_rom_enabled m = false \/ 0x100 <= a ->
  (a <? 0x100) && boot_rom_enabled m && boot_rom_truthy (boot_rom m) = false.
Proof.
  intros [H|H]; [rewrite H, andb_false_r; reflexivity|].
  replace (a <? 0x100) with false by (symmetry; apply Z.ltb_ge; lia). reflexivity.
Qed.

(** X20: [load_rom] rejects images shorter than 0x8000 bytes; for a ROM-only image, reads of 0x0000-0x7FFF return the image bytes outside the boot overlay. *)
Theorem mem_load_rom_only_reads (m : Memory) (rd : pybytes) (a : Z) :
  (blen rd < 0x8000 -> mem_load_rom m rd = None)
  /\ (plen (rom m) = 2 * 1024 * 1024 -> 0x8000 <= blen rd -> bget rd 0x147 = 0 ->
      0 <= a < 0x8000 -> boot_rom_enabled m = false \/ 0x100 <= a ->
      exists m', mem_load_rom m rd = Some m' /\ mbc_type m' = Some ROM_ONLY
        /\ read_byte m' a = Some (bget rd a)).
Proof.
  split.
  - intros H. unfold mem_load_rom. replace (blen rd <? 0x8000) with true by (symmetry; apply Z.ltb_lt; lia).
    reflexivity.
  - intros Hr Hl Ht Ha Hb. unfold mem_load_rom.
    replace (blen rd <? 0x8000) with false by (symmetry; apply Z.ltb_ge; lia).
    unfold _detect_mbc_type.
    replace (blen rd <? 0x147) with false by (symmetry; apply Z.ltb_ge; lia).
    rewrite Ht. cbv zeta. eexists. split; [reflexivity|]. split; [reflexivity|].
    unfold read_byte. rewrite boot_off_cond by (simpl; exact Hb). simp. unfold _read_rom_bank. simp.
    destruct (a <? 16384) eqn:E; to_prop E.
    + rewrite py_index_spec by (simp; lia). simp. decide_cmp. reflexivity.
    + decide_cmp. rewrite py_index_spec by (simp; lia). simp. decide_cmp. reflexivity.
Qed.

(** X21: after loading an MBC1 image, reads of the switchable window 0x4000+k return byte k of bank 0, not of bank 1. *)
Theorem mem_load_mbc_bank1_reads_bank0 (m : Memory) (rd : pybytes) (k : Z) :
  plen (rom m) = 2 * 1024 * 1024 -> 0x8000 <= blen rd -> bget rd 0x147 = 0x01 ->
  rom_bank m = 1 -> 0 <= k < 0x4000 ->
  exists m', mem_load_rom m rd = Some m' /\ mbc_type m' = Some MBC1
    /\ read_byte m' (0x4000 + k) = Some (bget rd k).
Proof.
  intros Hr Hl Ht Hbank Hk. unfold mem_load_rom.
  replace (blen rd <? 0x8000) with false by (symmetry; apply Z.ltb_ge; lia).
  unfold _detect_mbc_type.
  replace (blen rd <? 0x147) with false by (symmetry; apply Z.ltb_ge; lia).
  rewrite Ht. cbv zeta. eexists. split; [reflexivity|]. split; [reflexivity|].
  unfold read_byte. rewrite boot_off_cond by (right; lia).
  simp. decide_cmp. unfold _read_rom_bank. simp. rewrite Hbank.
  replace ((1 - 1) * 16384 + (16384 + k - 16384)) with k by lia. decide_cmp.
  rewrite py_index_spec by (simp; lia). simp. decide_cmp. reflexivity.
Qed.

Ltac simpt := cbn -[Z.add Z.sub Z.mul Z.ltb Z.leb Z.eqb Z.land Z.lor Z.shiftl
                    Z.shiftr Z.lnot Z.div Z.modulo Z.gtb Z.geb Z.testbit].
Ltac stp := first [ rewrite py_index_spec by (simpt; lia)
                  | rewrite py_store_spec by (simpt; lia) ]; simpt; decide_cmp; simpt.

(** X22: when TAC bit 2 is clear the timer step keeps the TIMA counter, TIMA (0xFF05) and IF (0xFF0F), and requests no interrupt. *)
Theorem timer_disabled_keeps_tima (t : Timer) (m : Memory) (log : list irq) (cyc : Z) :
  plen (io m) = 128 -> Z.land (pget (io m) 0x07) 0x04 = 0 ->
  exists t' m', timer_step t m log cyc = Some (t', m', log)
    /\ tima_counter t' = tima_counter t
    /\ pget (io m') 0x05 = pget (io m) 0x05
    /\ pget (io m') 0x0F = pget (io m) 0x0F.
Proof.
  intros Hl Ht. unfold timer_step, _is_timer_enabled.
  destruct (div_counter t + cyc >=? 256); simp.
  - stp. stp. stp. try rewrite Ht. simp. do 2 eexists. split; [reflexivity|]. simp.
    decide_cmp. auto.
  - stp. try rewrite Ht. simp. do 2 eexists. split; [reflexivity|]. auto.
Qed.

Lemma clock_select_freq (tac : Z) :
  nth_error [1024; 16; 64; 256] (Z.to_nat (Z.land tac 0x03))
  = Some (nth (Z.to_nat (Z.land tac 0x03)) [1024; 16; 64; 256] 0).
Proof.
  assert (H : 0 <= Z.land tac 3 < 4).
  { change 3 with (Z.ones 2). rewrite Z.land_ones by lia.
    pose proof (Z.mod_pos_bound tac (2 ^ 2)). change (2 ^ 2) with 4 in *. lia. }
  destruct (Z.land tac 3) as [|p|p]; [reflexivity| |lia].
  destruct p as [[]|[]|]; try reflexivity; lia.
Qed.

(** X23: with the timer enabled, TIMA at 0xFF and enough cycles for one tick, a timer step reloads TIMA from TMA, requests the timer interrupt and subtracts one period from the counter. *)
Theorem timer_tima_overflow (t : Timer) (m : Memory) (log : list irq) (cyc : Z) :
  plen (io m) = 128 ->
  let tac := pget (io m) 0x07 in
  let threshold := 4194304 / nth (Z.to_nat (Z.land tac 0x03)) [1024; 16; 64; 256] 0 in
  Z.land tac 0x04 <> 0 -> tima_counter t + cyc >= threshold ->
  pget (io m) 0x05 = 0xFF ->
  exists t' m', timer_step t m log cyc = Some (t', m', log ++ [TIMER])
    /\ tima_counter t' = tima_counter t + cyc - threshold
    /\ pget (io m') 0x05 = pget (io m) 0x06
    /\ Z.testbit (pget (io m') 0x0F) 2 = true.
Proof.
  intros Hl tac threshold Ht Hc H5. unfold timer_step, _is_timer_enabled.
  assert (Hf := clock_select_freq tac).
  destruct (div_counter t + cyc >=? 256); simpt; [stp; stp|]; stp; fold tac;
  (replace (Z.land tac 4 =? 0) with false by (symmetry; apply Z.eqb_neq; exact Ht));
  simpt; rewrite Hf; cbn beta iota delta [bind]; fold threshold;
  (replace (tima_counter t + cyc >=? threshold) with true
     by (symmetry; rewrite Z.geb_leb; apply Z.leb_le; lia));
  simpt; unfold _increment_tima; stp; try rewrite H5; simpt; decide_cmp; simpt; stp; stp;
  unfold request_interrupt; stp; stp; do 2 eexists; (split; [reflexivity|]);
  simpt; decide_cmp; (split; [reflexivity|]); (split; [reflexivity|]);
  rewrite Z.lor_spec; apply orb_true_r.
Qed.

Lemma py_store_same (l l' : pylist) (i v : Z) :
  py_store l i v = Some l' -> 0 <= i -> plen l' = plen l /\ pget l' i = v.
Proof.
  intros H Hi. unfold py_store in H.
  replace (i <? 0) with false in H by (symmetry; apply Z.ltb_ge; lia).
  destruct (_ && _); [|discriminate]. injection H as <-. simpl.
  rewrite Z.eqb_refl. auto.
Qed.

Lemma py_index_in (l : pylist) (i v : Z) :
  py_index l i = Some v -> 0 <= i < plen l -> v = pget l i.
Proof. intros H Hi. rewrite py_index_spec in H by exact Hi. congruence. Qed.

Lemma request_interrupt_other (m m' : Memory) (log log' : list irq) (t : irq) (j : Z) :
  request_interrupt m log t = Some (m', log') -> 0 <= j -> j <> 0x0F ->
  plen (io m') = plen (io m) /\ pget (io m') j = pget (io m) j.
Proof.
  intros H Hj Hj'. unfold request_interrupt, bind in H. crush_opt.
  match goal with E0 : py_store _ _ _ = Some _ |- _ =>
    destruct (py_store_other _ _ _ _ j E0) as [F F2]; [lia|lia|] end. simpl. auto.
Qed.

(** X24: a timer step increments DIV at most once, wrapping at 0xFF, and subtracts 256 from the DIV counter only when it reached 256. *)
Theorem timer_div_step (t t' : Timer) (m m' : Memory) (log log' : list irq) (cyc : Z) :
  plen (io m) = 128 ->
  timer_step t m log cyc = Some (t', m', log') ->
  let dc := div_counter t + cyc in
  div_counter t' = (if dc >=? 256 then dc - 256 else dc)
  /\ pget (io m') 0x04
     = (if dc >=? 256 then Z.land (pget (io m) 0x04 + 1) 0xFF else pget (io m) 0x04).
Proof.
  intros Hl H dc. unfold timer_step, _increment_tima, _is_timer_enabled, bind in H.
  fold dc in H. crush_opt;
  repeat match goal with
  | E : request_interrupt _ _ _ = Some (_, _) |- _ =>
      apply (request_interrupt_other _ _ _ _ _ 4) in E; [|lia|lia]
  | E : py_store ?X 4 ?v = Some ?L |- _ =>
      apply py_store_same in E; [|lia]
  | E : py_store ?X ?i ?v = Some ?L |- _ =>
      apply (py_store_other _ _ _ _ 4) in E; [|lia|lia]
  | E : py_index (io m) 4 = Some _ |- _ => apply py_index_in in E; [|lia]
  end;
  cbn [io set_io fst snd div_counter] in *;
  try (match goal with E : (dc >=? 256) = _ |- _ => rewrite E end);
  (split; [reflexivity|intuition congruence]).
Qed.

Lemma button_eqb_refl (b : button) : button_eqb b b = true.
Proof. destruct b; reflexivity. Qed.

Lemma button_eqb_eq (b c : button) : button_eqb b c = true -> b = c.
Proof. destruct b, c; simpl; congruence. Qed.

Lemma pressed_set_add (b : button) (l : list button) : pressed b (set_add b l) = true.
Proof.
  unfold set_add. destruct (pressed b l) eqn:E; [exact E|].
  unfold pressed. rewrite existsb_app. simpl. rewrite button_eqb_refl, orb_true_r. reflexivity.
Qed.

Lemma pressed_set_discard (b : button) (l : list button) : pressed b (set_discard b l) = false.
Proof.
  unfold pressed, set_discard. induction l as [|x l IH]; [reflexivity|].
  simpl. destruct (button_eqb b x) eqn:E; simpl; [exact IH|]. rewrite E. exact IH.
Qed.

Lemma discard_add (b : button) (l : list button) :
  pressed b l = false -> set_discard b (set_add b l) = l.
Proof.
  intros H. unfold set_add. rewrite H. unfold set_discard. rewrite filter_app.
  simpl. rewrite button_eqb_refl. simpl. rewrite app_nil_r.
  unfold pressed in H. induction l as [|x l IH]; [reflexivity|].
  simpl in *. apply orb_false_iff in H as [H1 H2]. rewrite H1. simpl. f_equal. auto.
Qed.

Lemma update_joypad_ok (j : Joypad) (m : Memory) :
  plen (io m) = 128 ->
  exists m', _update_joypad_register j m = Some m' /\ plen (io m') = 128.
Proof.
  intros Hl. unfold _update_joypad_register, get_io_register, set_io_register. cbv zeta.
  replace ((0xFF00 <=? 0xFF00) && (0xFF00 <=? 0xFF7F)) with true by reflexivity.
  rewrite py_index_spec by lia. unfold bind. rewrite py_store_spec by lia.
  eexists. split; [reflexivity|]. exact Hl.
Qed.

(** X25: pressing then releasing a key mapped to one button marks the button pressed, then not pressed; if it was not pressed before, both pressed sets are restored. *)
Theorem key_press_then_release (j : Joypad) (m : Memory) (key : string) (b : button) :
  plen (io m) = 128 -> key_mappings (str_lower key) = Some [b] ->
  exists j1 m1 j2 m2,
    key_press j m key = Some (j1, m1) /\ is_button_pressed j1 b = true
    /\ key_release j1 m1 key = Some (j2, m2) /\ is_button_pressed j2 b = false
    /\ (is_button_pressed j b = false ->
        buttons_pressed j2 = buttons_pressed j /\ directions_pressed j2 = directions_pressed j).
Proof.
  intros Hl Hk. unfold key_press, key_release. cbv zeta. rewrite Hk. cbn [fold_left].
  unfold is_button_pressed. destruct (is_direction b) eqn:Ed; cbv beta iota.
  - set (j1 := set_directions j (set_add b (directions_pressed j))).
    set (j2 := set_directions j1 (set_discard b (directions_pressed j1))).
    destruct (update_joypad_ok j1 m Hl) as [m1 [E1 L1]].
    destruct (update_joypad_ok j2 m1 L1) as [m2 [E2 L2]].
    exists j1, m1, j2, m2. fold j2. rewrite E1, E2. unfold bind.
    split; [reflexivity|]. split; [apply pressed_set_add|].
    split; [reflexivity|]. split; [apply pressed_set_discard|].
    intros H. split; [reflexivity|]. apply discard_add, H.
  - set (j1 := set_buttons j (set_add b (buttons_pressed j))).
    set (j2 := set_buttons j1 (set_discard b (buttons_pressed j1))).
    destruct (update_joypad_ok j1 m Hl) as [m1 [E1 L1]].
    destruct (update_joypad_ok j2 m1 L1) as [m2 [E2 L2]].
    exists j1, m1, j2, m2. fold j2. rewrite E1, E2. unfold bind.
    split; [reflexivity|]. split; [apply pressed_set_add|].
    split; [reflexivity|]. split; [apply pressed_set_discard|].
    intros H. split; [apply discard_add, H|reflexivity].
Qed.

Lemma testbit_clr (p mask i : Z) (c : bool) :
  0 <= i ->
  Z.testbit (if c then Z.land p (Z.lnot mask) else p) i
  = Z.testbit p i && negb (c && Z.testbit mask i).
Proof.
  intros Hi. destruct c; simpl.
  - rewrite Z.land_spec, Z.lnot_spec by exact Hi. reflexivity.
  - rewrite andb_true_r. reflexivity.
Qed.

(** X26: after a write to the joypad register, bits 0-3 of P1 are low exactly for the pressed buttons of the selected groups, bits 4-5 keep their old value, and bits 6-7 read 0. *)
Theorem p1_after_register_write (j : Joypad) (m : Memory) (value : Z) :
  plen (io m) = 128 ->
  let sd := Z.land value 0x10 =? 0 in
  let sb := Z.land value 0x20 =? 0 in
  let cur := pget (io m) 0 in
  exists j1 m1, handle_register_write j m value = Some (j1, m1)
    /\ select_directions j1 = sd /\ select_buttons j1 = sb
    /\ plen (io m1) = 128
    /\ forall i, 0 <= i < 8 ->
       Z.testbit (pget (io m1) 0) i =
       (if i <? 4 then
          negb ((sd && pressed (nth (Z.to_nat i) [Right; Left; Up; Down] Up)
                                (directions_pressed j))
                || (sb && pressed (nth (Z.to_nat i) [A; B; Select; Start] A)
                                  (buttons_pressed j)))
        else if i <? 6 then Z.testbit cur i else false).
Proof.
  intros Hl sd sb cur.
  unfold handle_register_write, _update_joypad_register, get_io_register, set_io_register.
  cbv zeta.
  replace ((0xFF00 <=? 0xFF00) && (0xFF00 <=? 0xFF7F)) with true by reflexivity.
  rewrite py_index_spec by lia. unfold bind. rewrite py_store_spec by lia.
  do 2 eexists. split; [reflexivity|]. cbn [select_directions select_buttons].
  fold sd sb. split; [reflexivity|]. split; [reflexivity|]. split; [exact Hl|].
  intros i Hi. cbn [io set_io pget]. change (0xFF00 - 0xFF00) with 0.
  rewrite Z.eqb_refl. fold cur.
  cbn [buttons_pressed directions_pressed].
  assert (Hc : i = 0 \/ i = 1 \/ i = 2 \/ i = 3 \/ i = 4 \/ i = 5 \/ i = 6 \/ i = 7) by lia.
  destruct sd, sb;
  destruct Hc as [->|[->|[->|[->|[->|[->|[->| ->]]]]]]];
  rewrite ?Z.land_spec, ?Z.lor_spec, ?Z.land_spec by lia;
  rewrite ?testbit_clr by lia;
  repeat match goal with |- context [Z.testbit ?a ?b] =>
    let v := eval vm_compute in (Z.testbit a b) in
    match v with true => change (Z.testbit a b) with true
               | false => change (Z.testbit a b) with false end end;
  repeat (match goal with |- context [Z.to_nat ?z] =>
     let n := eval vm_compute in (Z.to_nat z) in change (Z.to_nat z) with n end);
  cbn [nth];
  change (0 <? 4) with true; change (1 <? 4) with true; change (2 <? 4) with true;
  change (3 <? 4) with true; change (4 <? 4) with false; change (5 <? 4) with false;
  change (6 <? 4) with false; change (7 <? 4) with false; change (4 <? 6) with true;
  change (5 <? 6) with true; change (6 <? 6) with false; change (7 <? 6) with false;
  cbv iota; try btauto.
Qed.

(** X27: an opcode missing from the table (HALT 0x76 among them) is executed as a 4-cycle no-op: PC advances by its length, and registers, IME, memory and the halted flag are kept. *)
Theorem unknown_opcode_skipped (c : CPU) (m : Memory) (op : Z) :
  let r := registers c in
  halted c = false -> read_byte m (pc r) = Some op -> op <> 0xCB -> opcodes op = None ->
  exists c', cpu_step c m = Some (c', m, 4)
    /\ pc (registers c') = pc r + _get_instruction_length (set_current_opcode c op)
    /\ cycles (registers c') = cycles r + 4
    /\ sp (registers c') = sp r /\ ra (registers c') = ra r /\ rf (registers c') = rf r
    /\ get_bc (registers c') = get_bc r /\ get_de (registers c') = get_de r
    /\ get_hl (registers c') = get_hl r
    /\ ime c' = ime c /\ halted c' = false /\ stopped c' = stopped c.
Proof.
  intros r Hh Hr Hc Hop. unfold cpu_step. rewrite Hh. fold r. rewrite Hr.
  unfold bind. unfold _execute_instruction. cbn [current_opcode set_current_opcode].
  replace (op =? 0xCB) with false by (symmetry; apply Z.eqb_neq; exact Hc).
  rewrite Hop. eexists. split; [reflexivity|].
  cbn. repeat split; assumption.
Qed.

(** X10: no CPU step changes the [halted] or [stopped] flags. *)
Theorem cpu_step_keeps_halted_stopped (c c' : CPU) (m m' : Memory) (cyc : Z) :
  cpu_step c m = Some (c', m', cyc) -> halted c' = halted c /\ stopped c' = stopped c.
Proof. intros H. destruct (cpu_step_ok c m c' m' cyc H) as (H1 & H2 & _). auto. Qed.

(** X11: a CPU step keeps the memory well formed and never changes the ROM contents. *)
Theorem cpu_step_keeps_rom_and_wf (c c' : CPU) (m m' : Memory) (cyc : Z) :
  mem_wf m -> cpu_step c m = Some (c', m', cyc) -> mem_wf m' /\ rom m' = rom m.
Proof.
  intros W H. destruct (cpu_step_ok c m c' m' cyc H) as (_ & _ & ws & E).
  split; [exact (write_all_wf_keep _ _ _ E W) | exact (write_all_rom _ _ _ E)].
Qed.

(** X13: a PPU step never changes the memory: [_request_vblank_interrupt] passes 0x0F, not 0xFF0F, to the I/O accessors, so its write is dropped, and nothing else in the step writes memory. *)
Theorem ppu_step_never_changes_memory (p p' : PPU) (m m' : Memory) (cyc : Z) :
  ppu_step p m cyc = Some (p', m') -> m' = m.
Proof. exact (ppu_step_mem p p' m m' cyc). Qed.

(** X28: no sequence of bus writes changes the ROM contents. *)
Theorem bus_writes_never_change_rom (m m' : Memory) (ws : list (Z * Z)) :
  write_all m ws = Some m' -> rom m' = rom m.
Proof. exact (write_all_rom m m' ws). Qed.

Lemma write_then_read_byte_witness :
  mem_wf init_memory /\ ram_address 0xC000
  /\ exists m', write_byte init_memory 0xC000 0x1AB = Some m'
       /\ read_byte m' 0xC000 = Some 0xAB.
Proof.
  assert (W := init_memory_wf).
  assert (R : ram_address 0xC000) by (unfold ram_address; lia).
  split; [exact W|]. split; [exact R|].
  exact (write_then_read_byte init_memory 0xC000 0x1AB W R).
Defined.

Lemma echo_ram_mirrors_wram_witness :
  mem_wf init_memory /\ 0 <= 0x10 < 0x1E00
  /\ exists m', write_byte init_memory (0xE000 + 0x10) 0x5A = Some m'
       /\ read_byte m' (0xC000 + 0x10) = Some 0x5A.
Proof.
  assert (W := init_memory_wf). assert (K : 0 <= 0x10 < 0x1E00) by lia.
  split; [exact W|]. split; [exact K|].
  exact (proj1 (echo_ram_mirrors_wram init_memory 0x10 0x5A W K)).
Defined.

Lemma div_write_resets_witness :
  mem_wf init_memory
  /\ exists m', write_byte init_memory 0xFF04 0x77 = Some m' /\ read_byte m' 0xFF04 = Some 0.
Proof.
  assert (W := init_memory_wf). split; [exact W|].
  exact (div_write_resets init_memory 0x77 W).
Defined.

Lemma dropped_writes_witness :
  write_byte init_memory 0xFF00 0x20 = Some init_memory.
Proof.
  apply dropped_writes. right; right; left; reflexivity.
Defined.

Lemma write_word_read_word_witness :
  plen (wram init_memory) = 8 * 1024 /\ 0xC000 <= 0xC100 < 0xDFFF
  /\ exists m', write_word init_memory 0xC100 0x1234 = Some m'
       /\ read_word m' 0xC100 = Some 0x1234.
Proof.
  assert (L : plen (wram init_memory) = 8 * 1024) by reflexivity.
  assert (A : 0xC000 <= 0xC100 < 0xDFFF) by lia.
  split; [exact L|]. split; [exact A|].
  exact (write_word_read_word init_memory 0xC100 0x1234 L A).
Defined.

Lemma jp_nn_lands_past_target_witness :
  halted (cpu jp_rom) = false
  /\ read_byte (mem jp_rom) (pc (registers (cpu jp_rom))) = Some 0xC3
  /\ read_word (mem jp_rom) (pc (registers (cpu jp_rom)) + 1) = Some 0x0150
  /\ exists c', cpu_step (cpu jp_rom) (mem jp_rom) = Some (c', mem jp_rom, 16)
       /\ pc (registers c') = 0x0153 /\ sp (registers c') = sp (registers (cpu jp_rom)).
Proof.
  assert (H1 : halted (cpu jp_rom) = false) by (vm_compute; reflexivity).
  assert (H2 : read_byte (mem jp_rom) (pc (registers (cpu jp_rom))) = Some 0xC3)
    by (vm_compute; reflexivity).
  assert (H3 : read_word (mem jp_rom) (pc (registers (cpu jp_rom)) + 1) = Some 0x0150)
    by (vm_compute; reflexivity).
  split; [exact H1|]. split; [exact H2|]. split; [exact H3|].
  exact (jp_nn_lands_past_target (cpu jp_rom) (mem jp_rom) 0x0150 H1 H2 H3).
Defined.

Lemma call_then_ret_returns_past_call_witness :
  halted call_ret_cpu = false /\ plen (wram (mem call_ret_rom)) = 8 * 1024
  /\ read_byte (mem call_ret_rom) 0x0100 = Some 0xCD
  /\ read_word (mem call_ret_rom) 0x0101 = Some 0x0150
  /\ read_byte (mem call_ret_rom) 0x0153 = Some 0xC9
  /\ exists c' m', cpu_steps 2 call_ret_cpu (mem call_ret_rom) = Some (c', m')
       /\ pc (registers c') = 0x0104 /\ sp (registers c') = 0xD000.
Proof.
  assert (H1 : halted call_ret_cpu = false) by (vm_compute; reflexivity).
  assert (H2 : plen (wram (mem call_ret_rom)) = 8 * 1024) by (vm_compute; reflexivity).
  assert (Hp : pc (registers call_ret_cpu) = 0x0100) by (vm_compute; reflexivity).
  assert (Hs : sp (registers call_ret_cpu) = 0xD000) by (vm_compute; reflexivity).
  assert (H3 : read_byte (mem call_ret_rom) 0x0100 = Some 0xCD) by (vm_compute; reflexivity).
  assert (H4 : read_word (mem call_ret_rom) 0x0101 = Some 0x0150) by (vm_compute; reflexivity).
  assert (H5 : read_byte (mem call_ret_rom) 0x0153 = Some 0xC9) by (vm_compute; reflexivity).
  do 5 (split; [assumption|]).
  destruct (call_then_ret_returns_past_call call_ret_cpu (mem call_ret_rom) 0x0150)
    as (c' & m' & E & P & S & _); rewrite ?Hp, ?Hs; try assumption; try lia.
  exists c', m'. split; [exact E|]. rewrite P, S, Hp, Hs. split; reflexivity.
Defined.

Lemma cb_bit_register_step_witness :
  halted (cpu bit_rom) = false
  /\ read_byte (mem bit_rom) (pc (registers (cpu bit_rom))) = Some 0xCB
  /\ read_byte (mem bit_rom) (pc (registers (cpu bit_rom)) + 1) = Some 0x78
  /\ exists c', cpu_step (cpu bit_rom) (mem bit_rom) = Some (c', mem bit_rom, 8)
       /\ flag_z (registers c') = negb (Z.testbit (ra (registers (cpu bit_rom))) 0)
       /\ pc (registers c') = pc (registers (cpu bit_rom)) + 3.
Proof.
  assert (H1 : halted (cpu bit_rom) = false) by (vm_compute; reflexivity).
  assert (H2 : read_byte (mem bit_rom) (pc (registers (cpu bit_rom))) = Some 0xCB)
    by (vm_compute; reflexivity).
  assert (H3 : read_byte (mem bit_rom) (pc (registers (cpu bit_rom)) + 1) = Some 0x78)
    by (vm_compute; reflexivity).
  split; [exact H1|]. split; [exact H2|]. split; [exact H3|].
  destruct (cb_bit_register_step (cpu bit_rom) (mem bit_rom) 7 0 H1 ltac:(lia)
              ltac:(lia) ltac:(lia) H2 H3)
    as (c' & E & Z & _ & _ & _ & _ & _ & _ & _ & _ & _ & _ & _ & _ & P).
  exists c'. split; [exact E|]. split; [exact Z|exact P].
Defined.

Lemma cpu_step_keeps_halted_stopped_witness :
  exists c' m' cyc, cpu_step (cpu call_ret_rom) (mem call_ret_rom) = Some (c', m', cyc)
    /\ halted c' = false /\ stopped c' = false.
Proof.
  destruct (cpu_step (cpu call_ret_rom) (mem call_ret_rom)) as [[[c' m'] cyc]|] eqn:E.
  - exists c', m', cyc. split; [reflexivity|].
    destruct (cpu_step_keeps_halted_stopped _ _ _ _ _ E) as [H1 H2].
    rewrite H1, H2. split; vm_compute; reflexivity.
  - assert (S : is_some (cpu_step (cpu call_ret_rom) (mem call_ret_rom)) = true)
      by (vm_compute; reflexivity).
    rewrite E in S. discriminate S.
Defined.

Lemma cpu_step_keeps_rom_and_wf_witness :
  mem_wf init_memory
  /\ exists c' m' cyc, cpu_step cpu0 init_memory = Some (c', m', cyc)
       /\ mem_wf m' /\ rom m' = rom init_memory.
Proof.
  assert (W := init_memory_wf). split; [exact W|].
  destruct (cpu_step cpu0 init_memory) as [[[c' m'] cyc]|] eqn:E.
  - exists c', m', cyc. split; [reflexivity|].
    exact (cpu_step_keeps_rom_and_wf _ _ _ _ _ W E).
  - assert (S : is_some (cpu_step cpu0 init_memory) = true) by (vm_compute; reflexivity).
    rewrite E in S. discriminate S.
Defined.

Lemma frame_passes_keep_p1_witness :
  Z.land (pget (io (mem nop_rom_running)) 0) 0x30 = 0x30
  /\ exists g' fc', frame_passes (Z.to_nat 1000) nop_rom_running 0 = Some (g', fc')
       /\ pget (io (mem g')) 0 = 0xFF.
Proof.
  assert (Hp : Z.land (pget (io (mem nop_rom_running)) 0) 0x30 = 0x30)
    by (vm_compute; reflexivity).
  split; [exact Hp|].
  destruct (frame_passes (Z.to_nat 1000) nop_rom_running 0) as [[g' fc']|] eqn:E.
  - exists g', fc'. split; [reflexivity|].
    rewrite (frame_passes_keep_p1 _ _ _ _ _ E Hp). vm_compute. reflexivity.
  - assert (S : is_some (frame_passes (Z.to_nat 1000) nop_rom_running 0) = true)
      by (vm_compute; reflexivity).
    rewrite E in S. discriminate S.
Defined.

Lemma ppu_step_never_changes_memory_witness :
  exists p', ppu_step (mkPPU 0 200 143) init_memory 4 = Some (p', init_memory)
    /\ line p' = 144 /\ mode p' = 1.
Proof.
  destruct (ppu_step (mkPPU 0 200 143) init_memory 4) as [[p' m']|] eqn:E.
  - pose proof (ppu_step_never_changes_memory _ _ _ _ _ E) as M. subst m'.
    exists p'. split; [reflexivity|].
    assert (L : option_map (fun r => (line (fst r), mode (fst r)))
                  (ppu_step (mkPPU 0 200 143) init_memory 4) = Some (144, 1))
      by (vm_compute; reflexivity).
    rewrite E in L. injection L as L1 L2. split; assumption.
  - assert (S : is_some (ppu_step (mkPPU 0 200 143) init_memory 4) = true)
      by (vm_compute; reflexivity).
    rewrite E in S. discriminate S.
Defined.

Lemma request_then_clear_interrupt_witness :
  plen (io init_memory) = 128
  /\ exists m1 m2, request_interrupt init_memory [] TIMER = Some (m1, [TIMER])
       /\ pget (io m1) 0x0F = 0xE5 /\ clear_interrupt m1 TIMER = Some m2
       /\ pget (io m2) 0x0F = 0xE1.
Proof.
  assert (L : plen (io init_memory) = 128) by reflexivity. split; [exact L|].
  destruct (request_then_clear_interrupt init_memory [] TIMER L)
    as (m1 & m2 & E1 & P1 & E2 & P2 & _).
  exists m1, m2. split; [exact E1|]. split; [rewrite P1; reflexivity|].
  split; [exact E2|]. rewrite P2. reflexivity.
Defined.

Lemma io_register_round_trip_witness :
  plen (io init_memory) = 128
  /\ (exists m', set_io_register init_memory 0xFF42 0x1FF = Some m'
        /\ get_io_register m' 0xFF42 = Some 0xFF)
  /\ get_io_register init_memory 0xFF80 = Some 0
  /\ set_io_register init_memory 0xFF80 7 = Some init_memory.
Proof.
  assert (L : plen (io init_memory) = 128) by reflexivity. split; [exact L|].
  destruct (io_register_round_trip init_memory 0xFF42 0x1FF L) as [H1 _].
  destruct (io_register_round_trip init_memory 0xFF80 7 L) as [_ H2].
  destruct (H1 ltac:(lia)) as (m' & E & G & _).
  split; [exists m'; split; [exact E|exact G]|].
  apply H2. lia.
Defined.

Lemma load_boot_rom_overlay_witness :
  load_boot_rom init_memory (mkBytes 255 (fun _ => 0)) = None
  /\ exists m', load_boot_rom init_memory (mkBytes 256 (fun i => i)) = Some m'
       /\ read_byte m' 0x42 = Some 0x42.
Proof.
  destruct (load_boot_rom_overlay init_memory (mkBytes 255 (fun _ => 0))) as [N _].
  destruct (load_boot_rom_overlay init_memory (mkBytes 256 (fun i => i))) as [_ S].
  split; [apply N; simpl; lia|].
  destruct (S eq_refl) as (m' & E & _ & R).
  exists m'. split; [exact E|]. apply (R 0x42). lia.
Defined.

Lemma get_rom_bank_slice_witness :
  0 <= 0 < rom_banks (repeat 7 0x150)
  /\ get_rom_bank (repeat 7 0x150) 0 = repeat 7 0x150.
Proof.
  assert (H : 0 <= 0 < rom_banks (repeat 7 0x150)) by (split; [lia|vm_compute; reflexivity]).
  split; [exact H|]. rewrite (get_rom_bank_slice _ 0 H). vm_compute. reflexivity.
Defined.

Lemma get_rom_bank_negative_witness :
  get_rom_bank (repeat 0 (Z.to_nat 0x8000)) (-1) = []
  /\ get_rom_bank (repeat 0 (Z.to_nat 0x8000)) (-2)
     = firstn (Z.to_nat 0x4000) (repeat 0 (Z.to_nat 0x8000)).
Proof.
  destruct (get_rom_bank_negative (repeat 0 (Z.to_nat 0x8000)) (-2)) as [H1 H2].
  split; [exact H1|].
  rewrite H2 by (try lia; vm_compute; discriminate). reflexivity.
Defined.

Lemma mbc1_init_wf : mem_wf mbc1_init.
Proof. destruct init_memory_wf; constructor; assumption. Qed.

Lemma mbc_bank_switch_read_witness :
  mem_wf mbc1_init /\ mbc_in (mbc_type mbc1_init) [MBC1; MBC2; MBC3; MBC5] = true
  /\ exists m', write_byte mbc1_init 0x2000 0x22 = Some m' /\ rom_bank m' = 2
       /\ read_byte m' 0x4005 = Some (pget (rom mbc1_init) 0x4005).
Proof.
  assert (W := mbc1_init_wf).
  assert (T : mbc_in (mbc_type mbc1_init) [MBC1; MBC2; MBC3; MBC5] = true) by reflexivity.
  split; [exact W|]. split; [exact T|].
  exact (mbc_bank_switch_read mbc1_init 0x2000 0x22 5 W T ltac:(lia) ltac:(lia)).
Defined.

Lemma mem_load_rom_only_reads_witness :
  mem_load_rom init_memory (mkBytes 0x10 (fun _ => 0)) = None
  /\ exists m', mem_load_rom init_memory (rom_image [0x3E; 0x42] 0x00) = Some m'
       /\ mbc_type m' = Some ROM_ONLY /\ read_byte m' 0x0101 = Some 0x42.
Proof.
  destruct (mem_load_rom_only_reads init_memory (mkBytes 0x10 (fun _ => 0)) 0) as [N _].
  destruct (mem_load_rom_only_reads init_memory (rom_image [0x3E; 0x42] 0x00) 0x0101)
    as [_ S].
  split; [apply N; simpl; lia|].
  exact (S eq_refl ltac:(simpl; lia) eq_refl ltac:(lia) ltac:(right; lia)).
Defined.

Lemma mem_load_mbc_bank1_reads_bank0_witness :
  plen (rom init_memory) = 2 * 1024 * 1024
  /\ exists m', mem_load_rom init_memory (rom_image [0x3E] 0x01) = Some m'
       /\ mbc_type m' = Some MBC1 /\ read_byte m' 0x4100 = Some 0x3E.
Proof.
  assert (L : plen (rom init_memory) = 2 * 1024 * 1024) by reflexivity.
  split; [exact L|].
  exact (mem_load_mbc_bank1_reads_bank0 init_memory (rom_image [0x3E] 0x01) 0x100 L
           ltac:(simpl; lia) eq_refl eq_refl ltac:(lia)).
Defined.

Lemma timer_disabled_keeps_tima_witness :
  plen (io init_memory) = 128 /\ Z.land (pget (io init_memory) 0x07) 0x04 = 0
  /\ exists t' m', timer_step (mkTimer 0 100) init_memory [] 300 = Some (t', m', [])
       /\ tima_counter t' = 100.
Proof.
  assert (L : plen (io init_memory) = 128) by reflexivity.
  assert (T : Z.land (pget (io init_memory) 0x07) 0x04 = 0) by reflexivity.
  split; [exact L|]. split; [exact T|].
  destruct (timer_disabled_keeps_tima (mkTimer 0 100) init_memory [] 300 L T)
    as (t' & m' & E & C & _).
  exists t', m'. split; [exact E|exact C].
Defined.

Lemma timer_tima_overflow_witness :
  plen (io tima_ff_mem) = 128 /\ Z.land (pget (io tima_ff_mem) 0x07) 0x04 <> 0
  /\ pget (io tima_ff_mem) 0x05 = 0xFF
  /\ exists t' m', timer_step (mkTimer 0 262144) tima_ff_mem [] 8 = Some (t', m', [TIMER])
       /\ tima_counter t' = 8 /\ pget (io m') 0x05 = 0
       /\ Z.testbit (pget (io m') 0x0F) 2 = true.
Proof.
  assert (L : plen (io tima_ff_mem) = 128) by reflexivity.
  assert (T : Z.land (pget (io tima_ff_mem) 0x07) 0x04 <> 0) by (vm_compute; discriminate).
  assert (F : pget (io tima_ff_mem) 0x05 = 0xFF) by reflexivity.
  split; [exact L|]. split; [exact T|]. split; [exact F|].
  destruct (timer_tima_overflow (mkTimer 0 262144) tima_ff_mem [] 8 L T
              ltac:(vm_compute; intro X; discriminate X) F)
    as (t' & m' & E & C & P & B).
  exists t', m'. split; [exact E|]. split; [rewrite C; reflexivity|].
  split; [rewrite P; reflexivity|exact B].
Defined.

Lemma timer_div_step_witness :
  exists t' m' log', timer_step (mkTimer 200 0) init_memory [] 100 = Some (t', m', log')
    /\ div_counter t' = 44 /\ pget (io m') 0x04 = 1.
Proof.
  destruct (timer_step (mkTimer 200 0) init_memory [] 100) as [[[t' m'] log']|] eqn:E.
  - exists t', m', log'. split; [reflexivity|].
    destruct (timer_div_step (mkTimer 200 0) t' init_memory m' [] log' 100 (eq_refl : plen (io init_memory) = 128) E) as [D P].
    rewrite D, P. split; reflexivity.
  - assert (S : is_some (timer_step (mkTimer 200 0) init_memory [] 100) = true)
      by (vm_compute; reflexivity).
    rewrite E in S. discriminate S.
Defined.

Lemma key_press_then_release_witness :
  plen (io init_memory) = 128 /\ key_mappings (str_lower "Z") = Some [A]
  /\ exists j1 m1 j2 m2,
       key_press joypad0 init_memory "Z" = Some (j1, m1) /\ is_button_pressed j1 A = true
       /\ key_release j1 m1 "Z" = Some (j2, m2) /\ is_button_pressed j2 A = false
       /\ buttons_pressed j2 = [].
Proof.
  assert (L : plen (io init_memory) = 128) by reflexivity.
  assert (K : key_mappings (str_lower "Z") = Some [A]) by (vm_compute; reflexivity).
  split; [exact L|]. split; [exact K|].
  destruct (key_press_then_release joypad0 init_memory "Z" A L K)
    as (j1 & m1 & j2 & m2 & E1 & P1 & E2 & P2 & R).
  exists j1, m1, j2, m2. do 4 (split; [assumption|]).
  exact (proj1 (R eq_refl)).
Defined.

Lemma p1_after_register_write_witness :
  plen (io init_memory) = 128
  /\ exists j1 m1,
       handle_register_write (mkJoypad [A] [Up] false false) init_memory 0x20
         = Some (j1, m1)
       /\ select_directions j1 = true /\ select_buttons j1 = false
       /\ Z.testbit (pget (io m1) 0) 2 = false /\ Z.testbit (pget (io m1) 0) 0 = true.
Proof.
  assert (L : plen (io init_memory) = 128) by reflexivity. split; [exact L|].
  destruct (p1_after_register_write (mkJoypad [A] [Up] false false) init_memory 0x20 L)
    as (j1 & m1 & E & D & B & _ & T).
  exists j1, m1. split; [exact E|]. split; [exact D|]. split; [exact B|].
  rewrite (T 2 ltac:(lia)), (T 0 ltac:(lia)). split; vm_compute; reflexivity.
Defined.

Lemma unknown_opcode_skipped_witness :
  halted (cpu halt_rom) = false
  /\ read_byte (mem halt_rom) (pc (registers (cpu halt_rom))) = Some 0x76
  /\ opcodes 0x76 = None
  /\ exists c', cpu_step (cpu halt_rom) (mem halt_rom) = Some (c', mem halt_rom, 4)
       /\ pc (registers c') = 0x0101 /\ halted c' = false.
Proof.
  assert (H1 : halted (cpu halt_rom) = false) by (vm_compute; reflexivity).
  assert (H2 : read_byte (mem halt_rom) (pc (registers (cpu halt_rom))) = Some 0x76)
    by (vm_compute; reflexivity).
  assert (H3 : opcodes 0x76 = None) by reflexivity.
  split; [exact H1|]. split; [exact H2|]. split; [exact H3|].
  destruct (unknown_opcode_skipped (cpu halt_rom) (mem halt_rom) 0x76 H1 H2
              ltac:(discriminate) H3)
    as (c' & E & P & _ & _ & _ & _ & _ & _ & _ & _ & Hh & _).
  exists c'. split; [exact E|]. split; [|exact Hh].
  rewrite P. vm_compute. reflexivity.
Defined.

Lemma bus_writes_never_change_rom_witness :
  exists m', write_all init_memory [(0x0000, 0x0A); (0x2000, 0x03); (0x1234, 0x55)] = Some m'
    /\ rom m' = rom init_memory.
Proof.
  destruct (write_all init_memory [(0x0000, 0x0A); (0x2000, 0x03); (0x1234, 0x55)])
    as [m'|] eqn:E.
  - exists m'. split; [reflexivity|]. exact (bus_writes_never_change_rom _ _ _ E).
  - assert (S : is_some (write_all init_memory
                  [(0x0000, 0x0A); (0x2000, 0x03); (0x1234, 0x55)]) = true)
      by (vm_compute; reflexivity).
    rewrite E in S. discriminate S.
Defined.

(** ** PPU lines and VBlank requests *)

















